(** * Paikin-Tal puzzle solver: helper classes and the importer's test fixtures

    A shallow embedding of

    - [hammoudeh_puzzle_solver/solver_helper_classes.py]
      ([NextPieceToPlace], [PuzzleLocation], [NeighborSidePair]) and
    - [hammoudeh_puzzle_solver/puzzle_importer_tester.py]
      ([build_pixel_list], [row_to_row_step_size], [build_dummy_array]),

    together with the properties the design document states about them.

    Conventions.  Python integers are [Z]; loop indices produced by
    [range] are [nat].  A Python object with mutable attributes is a record
    and every operation that may write an attribute returns the updated
    record next to its result.  Object identity, where it matters, is an
    address in a heap.  Code that may raise returns a [Py.result].  A numpy
    array is a rectangular nested list of float64 cells; every cell of the
    fixtures is zero or was converted from a Python integer, so its value
    is an integer, and the cell is modelled by that value: the integer
    after rounding to 53 significant bits, which is where it differs from
    the integer assigned. *)

From stdpp Require Import base numbers list strings pretty gmap.
From Stdlib Require Import ZArith Lia Ascii.

Local Open Scope Z_scope.

(** ** Python built-ins used by the sources *)

Module Py.

(** [str(n)] for an integer [n]: decimal digits, a leading [-] for
    negative numbers, no padding. *)
Definition str (n : Z) : string := pretty n.

(** The exceptions the fixtures can meet. *)
Inductive exn := IndexError | OverflowError | TypeError | ValueError.

(** The outcome of code that may raise. *)
Inductive result (A : Type) : Type :=
| Ok (a : A)
| Raise (e : exn).
Arguments Ok {A} a.
Arguments Raise {A} e.

#[global] Instance result_ret : MRet result := λ A, Ok.
#[global] Instance result_bind : MBind result := λ A B f r,
  match r with Ok a => f a | Raise e => Raise e end.
#[global] Instance result_fmap : FMap result := λ A B f r,
  match r with Ok a => Ok (f a) | Raise e => Raise e end.

(** [for i in r: s = body(i, s)], where the body may raise. *)
Fixpoint for_range {St : Type} (r : list nat) (body : nat → St → result St)
    (s : St) : result St :=
  match r with
  | [] => Ok s
  | i :: r' => s' ← body i s; for_range r' body s'
  end.

(** [range(lo, hi)] *)
Definition range (lo hi : nat) : list nat := seq lo (hi - lo).

(** A number is an [int] or a [float].  The floats of the sources are
    [math.sqrt] of a perfect square and products of it with small
    integers, all of integral value: [Float z] is the float [z.0]. *)
Inductive number := Int (z : Z) | Float (z : Z).

(** [a * b]: a product with a float factor is a float.  (The values here
    are small integers, whose float product is exact.) *)
Definition mul (a b : number) : number :=
  match a, b with
  | Int x, Int y => Int (x * y)
  | Int x, Float y | Float x, Int y | Float x, Float y => Float (x * y)
  end.

(** [math.sqrt(n)]: always a float.  The only argument in the sources is
    the perfect square [NUMB_PUZZLE_PIECES], whose square root is exact. *)
Definition sqrt (n : Z) : number := Float (Z.sqrt n).

(** [int(x)] *)
Definition int (x : number) : Z :=
  match x with Int z | Float z => z end.

(** A non-negative integer rounded to 53 significant bits, ties to even. *)
Definition round53 (n : Z) : Z :=
  let bits := Z.log2 n + 1 in
  if bits <=? 53 then n
  else
    let shift := bits - 53 in
    let q := Z.shiftr n shift in
    let r := n - Z.shiftl q shift in
    let half := Z.shiftl 1 (shift - 1) in
    let q' := if (half <? r) || ((r =? half) && Z.odd q) then q + 1 else q in
    Z.shiftl q' shift.

(** [float(n)], which is also how a Python integer assigned to a float64
    cell is converted: the nearest float64, or [OverflowError] when that
    would be 2^1024 or more in magnitude. *)
Definition float (n : Z) : result Z :=
  let m := round53 (Z.abs n) in
  if Z.shiftl 1 1024 <=? m then Raise OverflowError else Ok (Z.sgn n * m).

(** 2^53: every integer of smaller magnitude is a float64. *)
Definition EXACT : Z := 9007199254740992.

End Py.

(** ** numpy arrays, as far as the fixtures use them *)

Module numpy.

Abbreviation ndarray2 := (list (list Z)).
Abbreviation ndarray3 := (list (list (list Z))).

(** The array of zeros of integer extents [(n, m)] and [(n, m, k)]. *)
Definition zeros2 (n m : nat) : ndarray2 := replicate n (replicate m 0).
Definition zeros3 (n m k : nat) : ndarray3 := replicate n (zeros2 m k).

(** What [numpy.zeros] does with an extent that is a float: numpy up to
    1.11 truncates it to an integer (with a deprecation warning), numpy
    from 1.12 on refuses it with [TypeError]. *)
Inductive float_extents := Truncated | Refused.

(** One extent of a shape. *)
Definition extent (fe : float_extents) (x : Py.number) : Py.result nat :=
  match x with
  | Py.Int z => if z <? 0 then Py.Raise Py.ValueError else Py.Ok (Z.to_nat z)
  | Py.Float z =>
      match fe with
      | Refused => Py.Raise Py.TypeError
      | Truncated =>
          if z <? 0 then Py.Raise Py.ValueError else Py.Ok (Z.to_nat z)
      end
  end.

(** [numpy.zeros((a, b, c))] *)
Definition zeros (fe : float_extents)
    (shape : Py.number * Py.number * Py.number) : Py.result ndarray3 :=
  n ← extent fe shape.1.1;
  m ← extent fe shape.1.2;
  k ← extent fe shape.2;
  Py.Ok (zeros3 n m k).

(** [a.shape] *)
Definition shape2 (a : ndarray2) : nat * nat :=
  (length a, length (default [] (head a))).
Definition shape3 (a : ndarray3) : nat * nat * nat :=
  (length a, length (default [] (head a)),
   length (default [] (head (default [] (head a))))).

(** [a[j] = v], [a[i, j] = v] and [a[i, j, k] = v] for a Python integer
    [v]: an index outside the array raises [IndexError], and the value is
    converted to float64, which may raise [OverflowError]. *)
Definition setitem1 (a : list Z) (j : nat) (v : Z) : Py.result (list Z) :=
  if decide (j < length a)%nat
  then x ← Py.float v; Py.Ok (<[j := x]> a)
  else Py.Raise Py.IndexError.
Definition setitem2 (a : ndarray2) (i j : nat) (v : Z) : Py.result ndarray2 :=
  match a !! i with
  | None => Py.Raise Py.IndexError
  | Some r => r' ← setitem1 r j v; Py.Ok (<[i := r']> a)
  end.
Definition setitem3 (a : ndarray3) (i j k : nat) (v : Z)
    : Py.result ndarray3 :=
  match a !! i with
  | None => Py.Raise Py.IndexError
  | Some p => p' ← setitem2 p j k v; Py.Ok (<[i := p']> a)
  end.

(** [a[i, j]] and [a[i, j, k]] *)
Definition getitem2 (a : ndarray2) (i j : nat) : option Z :=
  r ← a !! i; r !! j.
Definition getitem3 (a : ndarray3) (i j k : nat) : option Z :=
  p ← a !! i; getitem2 p j k.

(** [a[::-1]]: the first axis reversed. *)
Definition flip {A} (a : list A) : list A := reverse a.

(** [a.ravel()]: the entries in row-major order. *)
Definition ravel3 (a : ndarray3) : list Z := concat (concat a).

(** The nested list [a] is an array of shape [(n, m)], of shape
    [(n, m, k)]: every row, every plane has the same extent. *)
Definition rect2 (n m : nat) (a : ndarray2) : Prop :=
length a = n ∧ Forall (λ r, length r = m) a.
Definition rect3 (n m k : nat) (a : ndarray3) : Prop :=
length a = n ∧ Forall (rect2 m k) a.

(** The position of entry [(i, j, l)] in the row-major order of an array
    whose last two extents are [m] and [k]. *)
Definition offset3 (m k : nat) (i j l : nat) : nat :=
((i * m + j) * k + l)%nat.

End numpy.

(** ** solver_helper_classes.py *)

Module NextPieceToPlace.
Section Fields.
(** The constructor stores whatever it is given; the types of the slot
    location, of a piece side and of a compatibility score are those of
    modules outside this file. *)
Context {Location Side Score : Type}.

Record t := mk {
  puzzle_id : Z;
  open_slot_location : Location;
  next_piece_id : Z;
  next_piece_side : Side;
  neighbor_piece_id : Z;
  neighbor_piece_side : Side;
  mutual_compatibility : Score;
  is_best_buddy : bool;
  _numb_avg_placed_unplaced_links : Z;
  _total_placed_unplaced_compatibility_diff : Z
}.

Definition __init__ (puzzle_id : Z) (open_slot_location : Location)
    (next_piece_id : Z) (next_piece_side : Side)
    (neighbor_piece_id : Z) (neighbor_piece_side : Side)
    (compatibility : Score) (is_best_buddy : bool) : t :=
  {| puzzle_id := puzzle_id;
     open_slot_location := open_slot_location;
     next_piece_id := next_piece_id;
     next_piece_side := next_piece_side;
     neighbor_piece_id := neighbor_piece_id;
     neighbor_piece_side := neighbor_piece_side;
     mutual_compatibility := compatibility;
     is_best_buddy := is_best_buddy;
     _numb_avg_placed_unplaced_links := 0;
     _total_placed_unplaced_compatibility_diff := 0 |}.
End Fields.
Arguments t : clear implicits.
End NextPieceToPlace.

Module PuzzleLocation.

Record t := mk {
  puzzle_id : Z;
  row : Z;
  column : Z;
  _key : option string
}.

Definition __init__ (puzzle_id row column : Z) : t :=
  {| puzzle_id := puzzle_id; row := row; column := column; _key := None |}.

(** The [location] property. *)
Definition location (self : t) : Z * Z := (row self, column self).

(** The string [key] builds when nothing is cached. *)
Definition fresh_key (self : t) : string :=
  (((Py.str (puzzle_id self) +:+ "_") +:+ Py.str (row self)) +:+ "_")
    +:+ Py.str (column self).

(** The [key] property: the returned string and the object afterwards. *)
Definition key (self : t) : string * t :=
  match _key self with
  | None =>
      let k := fresh_key self in
      (k, {| puzzle_id := puzzle_id self; row := row self;
             column := column self; _key := Some k |})
  | Some k => (k, self)
  end.

(** Assignments to the public attributes. *)
Definition set_puzzle_id (v : Z) (self : t) : t :=
  {| puzzle_id := v; row := row self; column := column self;
     _key := _key self |}.
Definition set_row (v : Z) (self : t) : t :=
  {| puzzle_id := puzzle_id self; row := v; column := column self;
     _key := _key self |}.
Definition set_column (v : Z) (self : t) : t :=
  {| puzzle_id := puzzle_id self; row := row self; column := v;
     _key := _key self |}.

(** What a client can do with an existing object: read either property
    or assign one of the three public attributes. *)
Inductive op :=
| GetLocation
| GetKey
| SetPuzzleId (v : Z)
| SetRow (v : Z)
| SetColumn (v : Z).

Definition step (self : t) (o : op) : t :=
  match o with
  | GetLocation => self
  | GetKey => snd (key self)
  | SetPuzzleId v => set_puzzle_id v self
  | SetRow v => set_row v self
  | SetColumn v => set_column v self
  end.

Definition run (self : t) (ops : list op) : t := foldl step self ops.

(** The (board id, row, column) triple currently held. *)
Definition triple (self : t) : Z * Z * Z :=
  (puzzle_id self, row self, column self).

(** The cache is empty or holds the key of the current triple. *)
Definition cache_coherent (self : t) : Prop :=
  _key self = None ∨ _key self = Some (fresh_key self).

End PuzzleLocation.

(** Objects live in a heap and are handled through references.  The class
    defines neither [__eq__] nor [__hash__], so [==] on two locations is
    the one inherited from [object]: identity of the two references. *)
Module Heap.

Definition ref := nat.
Definition heap := gmap nat PuzzleLocation.t.

(** [PuzzleLocation(puzzle_id, row, column)]: a new object at an address
    that is not in use. *)
Definition new (h : heap) (puzzle_id row column : Z) : ref * heap :=
  let r := fresh (dom h) in
  (r, <[r := PuzzleLocation.__init__ puzzle_id row column]> h).

(** [a == b] *)
Definition eq (a b : ref) : bool := bool_decide (a = b).

End Heap.

Module NeighborSidePair.
Section Fields.
(** [PuzzlePieceSide] is declared in a module outside this file. *)
Context {PuzzlePieceSide : Type}.

Record t := mk {
  _neighbor_id : Z;
  _neighbor_side : PuzzlePieceSide
}.

Definition __init__ (neighbor_piece_id : Z)
    (neighbor_side : PuzzlePieceSide) : t :=
  {| _neighbor_id := neighbor_piece_id; _neighbor_side := neighbor_side |}.

(** The two read-only properties; neither assigns an attribute. *)
Definition id_number (self : t) : Z := _neighbor_id self.
Definition side (self : t) : PuzzlePieceSide := _neighbor_side self.

(** The operations of the class on an existing object, with the object
    each leaves behind. *)
Inductive op := GetIdNumber | GetSide.

Definition step (self : t) (o : op) : t :=
  match o with
  | GetIdNumber => self
  | GetSide => self
  end.

Definition run (self : t) (ops : list op) : t := foldl step self ops.
End Fields.
Arguments t : clear implicits.
End NeighborSidePair.

(** ** puzzle_importer_tester.py *)

Module PuzzleTester.
Import numpy.

Definition PIECE_WIDTH : nat := 5.
Definition NUMB_PUZZLE_PIECES : nat := 9.
Definition NUMB_PIXEL_DIMENSIONS : nat := 3.

Definition TEST_ARRAY_FIRST_PIXEL_VALUE : Z := 0.

Definition TEST_IMAGE_WIDTH : Z := 300.
Definition TEST_IMAGE_HEIGHT : Z := 200.

(** [row_to_row_step_size()] *)
Definition row_to_row_step_size : nat :=
  let step_size :=
    Py.mul (Py.mul (Py.Int (Z.of_nat NUMB_PIXEL_DIMENSIONS))
                   (Py.Int (Z.of_nat PIECE_WIDTH)))
           (Py.sqrt (Z.of_nat NUMB_PUZZLE_PIECES)) in
  Z.to_nat (Py.int step_size).

(** The two nested loops of [build_pixel_list], over any array. *)
Definition fill_pixels (start_value : Z) (pixel_offset : nat)
    (pixels : ndarray2) : Py.result ndarray2 :=
  Py.for_range (Py.range 0 PIECE_WIDTH) (λ i pixels,
    let pixel_start := start_value + Z.of_nat i * Z.of_nat pixel_offset in
    Py.for_range (Py.range 0 NUMB_PIXEL_DIMENSIONS) (λ j pixels,
      setitem2 pixels i j (pixel_start + Z.of_nat j)) pixels) pixels.

(** [build_pixel_list(start_value, is_row, reverse_list)] *)
Definition build_pixel_list (start_value : Z) (is_row : bool)
    (reverse_list : bool) : Py.result ndarray2 :=
  let pixel_offset :=
    if is_row then NUMB_PIXEL_DIMENSIONS else row_to_row_step_size in
  pixels ← fill_pixels start_value pixel_offset
             (zeros2 PIECE_WIDTH NUMB_PIXEL_DIMENSIONS);
  if reverse_list then Py.Ok (flip pixels) else Py.Ok pixels.

(** The three nested loops of [build_dummy_array] over an array [arr]
    and a counter [val]; the bounds are read off [arr.shape]. *)
Definition populate (arr : ndarray3) (val : Z) : Py.result (ndarray3 * Z) :=
  let shape := shape3 arr in
  Py.for_range (Py.range 0 shape.1.1) (λ row st,
    Py.for_range (Py.range 0 shape.1.2) (λ col st,
      Py.for_range (Py.range 0 shape.2) (λ dim '(arr, val),
        arr' ← setitem3 arr row col dim val;
        Py.Ok (arr', val + 1)) st) st) (arr, val).

(** [build_dummy_array()], on a numpy that treats float extents as [fe]
    says: the first two extents are the float
    [piece_width * math.sqrt(numb_pieces)], with no [int(...)] around it. *)
Definition build_dummy_array (fe : float_extents) : Py.result ndarray3 :=
  let piece_width := Py.Int (Z.of_nat PIECE_WIDTH) in
  let numb_pieces := Z.of_nat NUMB_PUZZLE_PIECES in
  let numb_dim := Py.Int (Z.of_nat NUMB_PIXEL_DIMENSIONS) in
  arr ← zeros fe (Py.mul piece_width (Py.sqrt numb_pieces),
                  Py.mul piece_width (Py.sqrt numb_pieces), numb_dim);
  let val := TEST_ARRAY_FIRST_PIXEL_VALUE in
  '(arr, _) ← populate arr val;
  Py.Ok arr.

End PuzzleTester.

(** ** puzzle_importer.py, as the tester and the design document describe it *)

Module Puzzle.

Inductive error := ConfigurationError | DataError | AlgorithmInvariantError.

Inductive Rotation := degree_0 | degree_90 | degree_180 | degree_270.

(** Modelled from the spec: the class PuzzlePiece of puzzle_piece.py is
    missing.  A piece has an identity unique within its puzzle, the
    puzzle-wide width, the grid location it was sliced from, and an
    assigned location and rotation that are unset until it is placed. *)
Record PuzzlePiece := mkPiece {
  piece_id : nat;
  width : Z;
  _orig_puzzle_id : Z;
  _orig_loc : nat * nat;
  _assigned_puzzle_id : option Z;
  location : option (Z * Z);
  rotation : option Rotation
}.

Record t := mk {
  _id : Z;
  _piece_width : Z;
  _img_height : Z;
  _img_width : Z;
  _grid_size : Z * Z;
  _pieces : list PuzzlePiece
}.

(** Modelled from the spec: the method Puzzle.make_pieces of
    puzzle_importer.py is missing.  The image is sliced into one piece per
    grid cell, enumerated in row-major grid order. *)
Definition make_pieces (id piece_width : Z) (grid_size : Z * Z)
    : list PuzzlePiece :=
  let numb_rows := Z.to_nat grid_size.1 in
  let numb_cols := Z.to_nat grid_size.2 in
  r ← seq 0 numb_rows;
  c ← seq 0 numb_cols;
  [ {| piece_id := (r * numb_cols + c)%nat; width := piece_width;
       _orig_puzzle_id := id; _orig_loc := (r, c);
       _assigned_puzzle_id := None; location := None; rotation := None |} ].

(** Modelled from the spec: the constructor Puzzle.__init__ of
    puzzle_importer.py is missing.  For an image of the given height and
    width in pixels, the grid size is (height / pieceWidth,
    width / pieceWidth); both must be exact integer divisions, and a
    division that is not exact, an invalid piece width or a puzzle of
    fewer than one piece is a configuration error, signalled before the
    image is sliced. *)
Definition __init__ (id img_height img_width piece_width : Z) : error + t :=
  if bool_decide (piece_width ≤ 0) then inl ConfigurationError
  else if bool_decide (img_height `mod` piece_width ≠ 0
                       ∨ img_width `mod` piece_width ≠ 0)
  then inl ConfigurationError
  else
    let grid_size := (img_height / piece_width, img_width / piece_width) in
    if bool_decide (grid_size.1 < 1 ∨ grid_size.2 < 1)
    then inl ConfigurationError
    else inr {| _id := id; _piece_width := piece_width;
                _img_height := img_height; _img_width := img_width;
                _grid_size := grid_size;
                _pieces := make_pieces id piece_width grid_size |}.

End Puzzle.

(** ** Predicates used in the statements *)

(** [occurs c s]: the character [c] occurs in the string [s]. *)
Fixpoint occurs (c : ascii) (s : string) : bool :=
match s with
| EmptyString => false
| String c' s' => bool_decide (c' = c) || occurs c s'
end.

(** The integer [n] can be converted to float64. *)
Definition fits_float64 (n : Z) : Prop := ∃ x : Z, Py.float n = Py.Ok x.

(** The value [build_pixel_list] assigns to channel [j] of pixel [i]. *)
Definition pixel_value (start_value : Z) (is_row : bool) (i j : nat) : Z :=
start_value
+ Z.of_nat i * Z.of_nat (if is_row then PuzzleTester.NUMB_PIXEL_DIMENSIONS
                         else PuzzleTester.row_to_row_step_size)
+ Z.of_nat j.

(** Each of the fifteen values of a pixel list can be converted to
    float64. *)
Definition pixel_values_fit (start_value : Z) (is_row : bool) : Prop :=
∀ i j : nat, (i < PuzzleTester.PIECE_WIDTH)%nat →
  (j < PuzzleTester.NUMB_PIXEL_DIMENSIONS)%nat →
  fits_float64 (pixel_value start_value is_row i j).

(** The loops of [populate], started on an array of shape [(n, m, k)] with
    the counter at [val0], have run through the first [K] entries in
    row-major order: these hold [val0], [val0 + 1], ... and the counter
    stands at [val0 + K]. *)
Definition populated (n m k : nat) (val0 : Z) (K : nat)
    (st : list (list (list Z)) * Z) : Prop :=
numpy.rect3 n m k st.1
∧ st.2 = val0 + Z.of_nat K
∧ ∀ i j l, (i < n)%nat → (j < m)%nat → (l < k)%nat →
    (numpy.offset3 m k i j l < K)%nat →
    numpy.getitem3 st.1 i j l
    = Some (val0 + Z.of_nat (numpy.offset3 m k i j l)).

(** * Properties *)

(** ** NextPieceToPlace *)

(** C5: the constructor of [NextPieceToPlace] stores its eight arguments
    unchanged in the fields of the same name (the compatibility in
    [mutual_compatibility]) and starts both aggregates of the spawn
    decision, the link count and the total compatibility difference, at
    zero. *)
Theorem NextPieceToPlace_init_stores {Location Side Score : Type}
    (puzzle_id : Z) (open_slot_location : Location)
    (next_piece_id : Z) (next_piece_side : Side)
    (neighbor_piece_id : Z) (neighbor_piece_side : Side)
    (compatibility : Score) (is_best_buddy : bool) :
  let c := NextPieceToPlace.__init__ puzzle_id open_slot_location
             next_piece_id next_piece_side neighbor_piece_id
             neighbor_piece_side compatibility is_best_buddy in
  NextPieceToPlace.puzzle_id c = puzzle_id
  ∧ NextPieceToPlace.open_slot_location c = open_slot_location
  ∧ NextPieceToPlace.next_piece_id c = next_piece_id
  ∧ NextPieceToPlace.next_piece_side c = next_piece_side
  ∧ NextPieceToPlace.neighbor_piece_id c = neighbor_piece_id
  ∧ NextPieceToPlace.neighbor_piece_side c = neighbor_piece_side
  ∧ NextPieceToPlace.mutual_compatibility c = compatibility
  ∧ NextPieceToPlace.is_best_buddy c = is_best_buddy
  ∧ NextPieceToPlace._numb_avg_placed_unplaced_links c = 0
  ∧ NextPieceToPlace._total_placed_unplaced_compatibility_diff c = 0.
Proof. intros c. subst c. repeat split. Qed.

(** ** NeighborSidePair *)

Lemma NeighborSidePair_run_id {Side : Type} (self : NeighborSidePair.t Side)
    (ops : list NeighborSidePair.op) :
  NeighborSidePair.run self ops = self.
Proof.
  unfold NeighborSidePair.run.
  induction ops as [|o ops IH]; [reflexivity|].
  destruct o; exact IH.
Qed.

(** C9: reading [id_number] and [side] of [NeighborSidePair(id, side)]
    returns the two constructor arguments, and no sequence of operations of
    the class changes the object, so the same holds after any of them. *)
Theorem NeighborSidePair_round_trip {Side : Type} (neighbor_piece_id : Z)
    (neighbor_side : Side) (ops : list NeighborSidePair.op) :
  let p := NeighborSidePair.__init__ neighbor_piece_id neighbor_side in
  NeighborSidePair.id_number p = neighbor_piece_id
  ∧ NeighborSidePair.side p = neighbor_side
  ∧ NeighborSidePair.run p ops = p
  ∧ NeighborSidePair.id_number (NeighborSidePair.run p ops) = neighbor_piece_id
  ∧ NeighborSidePair.side (NeighborSidePair.run p ops) = neighbor_side.
Proof.
  intros p. rewrite NeighborSidePair_run_id. subst p. repeat split.
Qed.

(** ** PuzzleLocation: the [location] property *)

(** C10: [location] is the pair (row, column) of the fields as they are
    now, for an object in any state, so also after any operations, the
    cache filled or not: an assignment to [row] or [column] shows in it,
    one to [puzzle_id] does not, and reading [key] leaves it alone. *)
Theorem location_is_current_row_column (self : PuzzleLocation.t)
    (ops : list PuzzleLocation.op) (v : Z) :
  PuzzleLocation.location self
    = (PuzzleLocation.row self, PuzzleLocation.column self)
  ∧ PuzzleLocation.location (PuzzleLocation.run self ops)
    = (PuzzleLocation.row (PuzzleLocation.run self ops),
       PuzzleLocation.column (PuzzleLocation.run self ops))
  ∧ PuzzleLocation.location (PuzzleLocation.set_row v self)
    = (v, PuzzleLocation.column self)
  ∧ PuzzleLocation.location (PuzzleLocation.set_column v self)
    = (PuzzleLocation.row self, v)
  ∧ PuzzleLocation.location (PuzzleLocation.set_puzzle_id v self)
    = PuzzleLocation.location self
  ∧ PuzzleLocation.location (PuzzleLocation.key self).2
    = PuzzleLocation.location self
  ∧ PuzzleLocation.location
      (PuzzleLocation.set_row v (PuzzleLocation.key self).2)
    = (v, PuzzleLocation.column self).
Proof.
  repeat split; unfold PuzzleLocation.key;
    destruct (PuzzleLocation._key self); reflexivity.
Qed.

(** ** PuzzleLocation: the cached key *)

Lemma key_caches (self : PuzzleLocation.t) :
  PuzzleLocation._key (PuzzleLocation.key self).2
    = Some (PuzzleLocation.key self).1.
Proof.
  unfold PuzzleLocation.key.
  destruct (PuzzleLocation._key self) eqn:E; simpl; [exact E | reflexivity].
Qed.

Lemma key_cached (self : PuzzleLocation.t) (k : string) :
  PuzzleLocation._key self = Some k → PuzzleLocation.key self = (k, self).
Proof. unfold PuzzleLocation.key. intros ->. reflexivity. Qed.

Lemma step_keeps_cache (self : PuzzleLocation.t) (k : string)
    (o : PuzzleLocation.op) :
  PuzzleLocation._key self = Some k →
  PuzzleLocation._key (PuzzleLocation.step self o) = Some k.
Proof.
  intros Hk. destruct o; simpl; try exact Hk.
  rewrite (key_cached _ _ Hk). exact Hk.
Qed.

Lemma run_keeps_cache (ops : list PuzzleLocation.op) :
  ∀ (self : PuzzleLocation.t) (k : string),
    PuzzleLocation._key self = Some k →
    PuzzleLocation._key (PuzzleLocation.run self ops) = Some k.
Proof.
  unfold PuzzleLocation.run.
  induction ops as [|o ops IH]; intros self k Hk; simpl; [exact Hk|].
  apply IH, step_keeps_cache, Hk.
Qed.

(** C8: [key] is memoized.  After one access the cache holds the string
    that access returned; whatever reads and assignments to [puzzle_id],
    [row] and [column] follow, the cache still holds it and the next access
    of [key] returns it; and no single operation changes a cache that is
    set. *)
Theorem key_is_memoized (self : PuzzleLocation.t)
    (ops : list PuzzleLocation.op) :
  let k := (PuzzleLocation.key self).1 in
  let self' := (PuzzleLocation.key self).2 in
  PuzzleLocation._key self' = Some k
  ∧ PuzzleLocation._key (PuzzleLocation.run self' ops) = Some k
  ∧ (PuzzleLocation.key (PuzzleLocation.run self' ops)).1 = k
  ∧ (∀ (obj : PuzzleLocation.t) (s : string) (o : PuzzleLocation.op),
       PuzzleLocation._key obj = Some s →
       PuzzleLocation._key (PuzzleLocation.step obj o) = Some s).
Proof.
  intros k self'.
  assert (PuzzleLocation._key self' = Some k) as Hk by apply key_caches.
  split; [exact Hk|].
  pose proof (run_keeps_cache ops _ _ Hk) as Hrun.
  split; [exact Hrun|].
  split; [rewrite (key_cached _ _ Hrun); reflexivity|].
  intros obj s o. apply step_keeps_cache.
Qed.

(** A run of C8: the key of (1, 2, 3) survives a change of every field. *)
Lemma key_is_memoized_witness :
  let self := PuzzleLocation.__init__ 1 2 3 in
  let ops := [PuzzleLocation.SetRow 7; PuzzleLocation.SetPuzzleId 4;
              PuzzleLocation.GetKey; PuzzleLocation.SetColumn 9] in
  (PuzzleLocation.key self).1 = "1_2_3"
  ∧ PuzzleLocation.triple (PuzzleLocation.run (PuzzleLocation.key self).2 ops)
    = (4, 7, 9)
  ∧ (PuzzleLocation.key
       (PuzzleLocation.run (PuzzleLocation.key self).2 ops)).1 = "1_2_3".
Proof.
  intros self ops.
  split; [vm_compute; reflexivity|].
  split; [vm_compute; reflexivity|].
  destruct (key_is_memoized self ops) as (_ & _ & H & _).
  rewrite H. vm_compute. reflexivity.
Defined.

(** ** PuzzleLocation: the key as an identifier of the triple *)

Lemma append_assoc (a b c : string) : (a +:+ b) +:+ c = a +:+ (b +:+ c).
Proof.
  induction a as [|x a IH]; [reflexivity|].
  change (String x ((a +:+ b) +:+ c) = String x (a +:+ (b +:+ c))).
  f_equal. exact IH.
Qed.

Lemma occurs_pretty_N_go (x : N) :
  ∀ s, occurs "_" s = false → occurs "_" (pretty_N_go x s) = false.
Proof.
  induction (N.lt_wf_0 x) as [x _ IH]; intros s Hs.
  assert (x = 0 ∨ 0 < x)%N as [->|Hpos] by lia.
  - by rewrite pretty_N_go_0.
  - rewrite pretty_N_go_step by done.
    apply IH; [by apply N.div_lt|].
    simpl. rewrite Hs, orb_false_r.
    unfold pretty_N_char. by repeat case_match.
Qed.

Lemma occurs_pretty_N (x : N) : occurs "_" (pretty x) = false.
Proof.
  unfold pretty, pretty_N. case_decide; [reflexivity|].
  by apply occurs_pretty_N_go.
Qed.

(** The decimal rendering of an integer has no underscore in it. *)
Lemma str_no_underscore (n : Z) : occurs "_" (Py.str n) = false.
Proof.
  unfold Py.str, pretty, pretty_Z.
  destruct n as [|p|p]; [reflexivity|apply occurs_pretty_N|].
  simpl. apply (occurs_pretty_N (N.pos p)).
Qed.

(** Two strings that agree and are each cut by the first underscore have
    the same parts on both sides of it. *)
Lemma split_at_first_underscore (a b r r' : string) :
  occurs "_" a = false → occurs "_" b = false →
  a +:+ String "_" r = b +:+ String "_" r' → a = b ∧ r = r'.
Proof.
  revert b. induction a as [|x a IH]; intros [|y b]; simpl.
  - intros _ _ [= ->]. done.
  - intros _ Hb [= <- _]. by rewrite bool_decide_eq_true_2 in Hb.
  - intros Ha _ [= -> _]. by rewrite bool_decide_eq_true_2 in Ha.
  - intros [_ Ha]%orb_false_elim [_ Hb]%orb_false_elim [= -> Heq].
    destruct (IH b Ha Hb Heq) as [-> ->]. done.
Qed.

Lemma fresh_key_parts (self : PuzzleLocation.t) :
  PuzzleLocation.fresh_key self
  = Py.str (PuzzleLocation.puzzle_id self)
      +:+ String "_" (Py.str (PuzzleLocation.row self)
      +:+ String "_" (Py.str (PuzzleLocation.column self))).
Proof.
  unfold PuzzleLocation.fresh_key. by rewrite !append_assoc.
Qed.

(** The string built from a triple determines the triple. *)
Lemma fresh_key_inj (p q : PuzzleLocation.t) :
  PuzzleLocation.fresh_key p = PuzzleLocation.fresh_key q →
  PuzzleLocation.triple p = PuzzleLocation.triple q.
Proof.
  rewrite !fresh_key_parts. intros H.
  apply split_at_first_underscore in H as [Hid H];
    [|apply str_no_underscore..].
  apply split_at_first_underscore in H as [Hrow Hcol];
    [|apply str_no_underscore..].
  unfold PuzzleLocation.triple, Py.str in *.
  by rewrite (inj pretty _ _ Hid), (inj pretty _ _ Hrow),
    (inj pretty _ _ Hcol).
Qed.

Lemma fresh_key_of_triple (p q : PuzzleLocation.t) :
  PuzzleLocation.triple p = PuzzleLocation.triple q →
  PuzzleLocation.fresh_key p = PuzzleLocation.fresh_key q.
Proof.
  unfold PuzzleLocation.triple, PuzzleLocation.fresh_key.
  by intros [= -> -> ->].
Qed.

Lemma key_of_coherent (self : PuzzleLocation.t) :
  PuzzleLocation.cache_coherent self →
  (PuzzleLocation.key self).1 = PuzzleLocation.fresh_key self.
Proof.
  unfold PuzzleLocation.cache_coherent, PuzzleLocation.key.
  by intros [-> | ->].
Qed.

Lemma key_twice (self : PuzzleLocation.t) :
  PuzzleLocation.key (PuzzleLocation.key self).2
  = PuzzleLocation.key self.
Proof.
  rewrite (key_cached _ _ (key_caches self)). by destruct (PuzzleLocation.key self).
Qed.

Lemma key_repeated (n : nat) (self : PuzzleLocation.t) :
  PuzzleLocation.key (Nat.iter n (λ o, (PuzzleLocation.key o).2) self)
  = PuzzleLocation.key
      (match n with O => self | S _ => (PuzzleLocation.key self).2 end).
Proof.
  induction n as [|n IH]; [reflexivity|].
  simpl. rewrite IH. destruct n; [reflexivity | apply key_twice].
Qed.

(** A newly constructed location has an empty cache, and reading either
    property keeps a coherent cache coherent. *)
Lemma init_coherent (puzzle_id row column : Z) :
  PuzzleLocation.cache_coherent
    (PuzzleLocation.__init__ puzzle_id row column).
Proof. by left. Qed.

Lemma key_keeps_coherent (self : PuzzleLocation.t) :
  PuzzleLocation.cache_coherent self →
  PuzzleLocation.cache_coherent (PuzzleLocation.key self).2.
Proof.
  unfold PuzzleLocation.cache_coherent, PuzzleLocation.key.
  destruct (PuzzleLocation._key self) eqn:E; simpl; [by rewrite E | by right].
Qed.

(** C3, as the code has it: for two locations with integer fields whose
    cache is empty or agrees with their present fields (as it is for every
    location that was not assigned to after its key was first read) the key
    strings are equal exactly when the (puzzle_id, row, column) triples
    are, and reading [key] again and again returns the same string. *)
Theorem key_identifies_triple (p q : PuzzleLocation.t) (n : nat) :
  PuzzleLocation.cache_coherent p →
  PuzzleLocation.cache_coherent q →
  ((PuzzleLocation.key p).1 = (PuzzleLocation.key q).1
     ↔ PuzzleLocation.triple p = PuzzleLocation.triple q)
  ∧ (PuzzleLocation.key
       (Nat.iter n (λ o, (PuzzleLocation.key o).2) p)).1
    = (PuzzleLocation.key p).1.
Proof.
  intros Hp Hq. split.
  - rewrite !key_of_coherent by done.
    split; [apply fresh_key_inj | apply fresh_key_of_triple].
  - rewrite key_repeated. destruct n; [reflexivity | by rewrite key_twice].
Qed.

(** Two new locations, (12, 3, 4) and (1, 23, 4), and (1, 2, 3) twice. *)
Lemma key_identifies_triple_witness :
  ((PuzzleLocation.key (PuzzleLocation.__init__ 12 3 4)).1
     = (PuzzleLocation.key (PuzzleLocation.__init__ 1 23 4)).1
   ↔ PuzzleLocation.triple (PuzzleLocation.__init__ 12 3 4)
     = PuzzleLocation.triple (PuzzleLocation.__init__ 1 23 4))
  ∧ (PuzzleLocation.key
       (Nat.iter 3 (λ o, (PuzzleLocation.key o).2)
          (PuzzleLocation.__init__ 12 3 4))).1
    = (PuzzleLocation.key (PuzzleLocation.__init__ 12 3 4)).1.
Proof.
  apply (key_identifies_triple (PuzzleLocation.__init__ 12 3 4)
           (PuzzleLocation.__init__ 1 23 4) 3); left; reflexivity.
Defined.

(** C3 as stated fails once a field is assigned after the key was read:
    [p = PuzzleLocation(1, 2, 3)], read [p.key], then [p.row = 5], holds the
    same triple as [PuzzleLocation(1, 5, 3)] but still answers "1_2_3"; and
    it has the key of [PuzzleLocation(1, 2, 3)], whose triple differs. *)
Lemma key_stale_after_assignment :
  let p := PuzzleLocation.set_row 5
             (PuzzleLocation.key (PuzzleLocation.__init__ 1 2 3)).2 in
  let q := PuzzleLocation.__init__ 1 5 3 in
  let r := PuzzleLocation.__init__ 1 2 3 in
  PuzzleLocation.triple p = PuzzleLocation.triple q
  ∧ (PuzzleLocation.key p).1 = "1_2_3"
  ∧ (PuzzleLocation.key q).1 = "1_5_3"
  ∧ (PuzzleLocation.key p).1 ≠ (PuzzleLocation.key q).1
  ∧ (PuzzleLocation.key p).1 = (PuzzleLocation.key r).1
  ∧ PuzzleLocation.triple p ≠ PuzzleLocation.triple r.
Proof.
  intros p q r. repeat split; try (vm_compute; reflexivity);
    vm_compute; discriminate.
Qed.

(** ** PuzzleLocation: equality *)

Lemma new_is_fresh (h : Heap.heap) (puzzle_id row column : Z) :
  (Heap.new h puzzle_id row column).1 ∉ dom h.
Proof. apply is_fresh. Qed.

Lemma new_lookup (h : Heap.heap) (puzzle_id row column : Z) :
  (Heap.new h puzzle_id row column).2 !! (Heap.new h puzzle_id row column).1
  = Some (PuzzleLocation.__init__ puzzle_id row column).
Proof. apply lookup_insert_eq. Qed.

Lemma new_keeps (h : Heap.heap) (puzzle_id row column : Z) (a : Heap.ref) :
  a ∈ dom h →
  (Heap.new h puzzle_id row column).2 !! a = h !! a.
Proof.
  intros Ha. apply lookup_insert_ne. intros <-.
  by apply (new_is_fresh h puzzle_id row column).
Qed.

Lemma new_distinct (h : Heap.heap) (puzzle_id row column : Z)
    (puzzle_id' row' column' : Z) :
  let a := (Heap.new h puzzle_id row column).1 in
  let h1 := (Heap.new h puzzle_id row column).2 in
  (Heap.new h1 puzzle_id' row' column').1 ≠ a.
Proof.
  intros a h1 Heq.
  apply (new_is_fresh h1 puzzle_id' row' column'). rewrite Heq.
  apply elem_of_dom. unfold h1, a. rewrite new_lookup. by eexists.
Qed.

Lemma heap_eq_spec (a b : Heap.ref) : Heap.eq a b = true ↔ a = b.
Proof. unfold Heap.eq. apply bool_decide_eq_true. Qed.

(** C4, as the code has it: [PuzzleLocation] defines no equality of its own,
    so [==] is identity.  Two locations constructed one after the other
    from the same triple hold the same field values and yet compare
    unequal; a location compares equal to itself, and to nothing else. *)
Theorem location_equality_is_identity (h : Heap.heap)
    (puzzle_id row column : Z) :
  let a := (Heap.new h puzzle_id row column).1 in
  let h1 := (Heap.new h puzzle_id row column).2 in
  let b := (Heap.new h1 puzzle_id row column).1 in
  let h2 := (Heap.new h1 puzzle_id row column).2 in
  h2 !! a = Some (PuzzleLocation.__init__ puzzle_id row column)
  ∧ h2 !! b = Some (PuzzleLocation.__init__ puzzle_id row column)
  ∧ Heap.eq a b = false
  ∧ Heap.eq a a = true
  ∧ Heap.eq b b = true
  ∧ (∀ x y : Heap.ref, Heap.eq x y = true ↔ x = y).
Proof.
  intros a h1 b h2.
  assert (b ≠ a) as Hne by apply new_distinct.
  split.
  { unfold h2. rewrite new_keeps; [apply new_lookup|].
    apply elem_of_dom. unfold h1, a. rewrite new_lookup. by eexists. }
  split; [apply new_lookup|].
  split.
  { destruct (Heap.eq a b) eqn:E; [|reflexivity].
    apply heap_eq_spec in E. by destruct Hne. }
  split; [by apply heap_eq_spec|].
  split; [by apply heap_eq_spec|].
  apply heap_eq_spec.
Qed.

(** C4 as stated fails: [PuzzleLocation(1, 2, 3) == PuzzleLocation(1, 2, 3)]
    is false, though both objects hold the same fields. *)
Lemma same_triple_compares_unequal :
  let a := (Heap.new ∅ 1 2 3).1 in
  let h1 := (Heap.new ∅ 1 2 3).2 in
  let b := (Heap.new h1 1 2 3).1 in
  let h2 := (Heap.new h1 1 2 3).2 in
  h2 !! a = h2 !! b ∧ Heap.eq a b = false.
Proof. intros a h1 b h2. split; vm_compute; reflexivity. Qed.

(** ** Puzzle construction *)

Lemma length_bind_const {A B : Type} (f : A → list B) (k : nat) (l : list A) :
  (∀ x, length (f x) = k) → length (l ≫= f) = (length l * k)%nat.
Proof.
  intros Hf. induction l as [|x l IH]; [reflexivity|].
  rewrite bind_cons, length_app, IH, Hf. simpl. lia.
Qed.

Lemma length_make_pieces (id piece_width : Z) (grid_size : Z * Z) :
  length (Puzzle.make_pieces id piece_width grid_size)
  = (Z.to_nat grid_size.1 * Z.to_nat grid_size.2)%nat.
Proof.
  unfold Puzzle.make_pieces.
  rewrite (length_bind_const _ (Z.to_nat grid_size.2)), length_seq; [done|].
  intros r. rewrite (length_bind_const _ 1%nat), length_seq; [lia|done].
Qed.

Lemma init_inr (id img_height img_width piece_width : Z) (puzzle : Puzzle.t) :
  Puzzle.__init__ id img_height img_width piece_width = inr puzzle →
  0 < piece_width
  ∧ img_height `mod` piece_width = 0 ∧ img_width `mod` piece_width = 0
  ∧ 1 ≤ img_height / piece_width ∧ 1 ≤ img_width / piece_width
  ∧ puzzle = {| Puzzle._id := id; Puzzle._piece_width := piece_width;
                Puzzle._img_height := img_height;
                Puzzle._img_width := img_width;
                Puzzle._grid_size :=
                  (img_height / piece_width, img_width / piece_width);
                Puzzle._pieces :=
                  Puzzle.make_pieces id piece_width
                    (img_height / piece_width, img_width / piece_width) |}.
Proof.
  unfold Puzzle.__init__. repeat case_bool_decide; try discriminate.
  intros [= <-]. simpl in *. repeat split; lia.
Qed.

(** C6: a puzzle that is constructed has grid size exactly
    (image height / piece width, image width / piece width), both divisions
    exact, and as many pieces as the product of the two grid dimensions;
    an image whose height or width is not a multiple of the piece width
    gives [ConfigurationError] and no puzzle, hence no piece; and an image
    of positive size whose sides are multiples of a positive piece width
    is constructed. *)
Theorem puzzle_grid_size_and_pieces (id img_height img_width piece_width : Z) :
  (∀ puzzle : Puzzle.t,
     Puzzle.__init__ id img_height img_width piece_width = inr puzzle →
     Puzzle._grid_size puzzle
       = (img_height / piece_width, img_width / piece_width)
     ∧ (Puzzle._grid_size puzzle).1 * piece_width = img_height
     ∧ (Puzzle._grid_size puzzle).2 * piece_width = img_width
     ∧ Z.of_nat (length (Puzzle._pieces puzzle))
       = (Puzzle._grid_size puzzle).1 * (Puzzle._grid_size puzzle).2)
  ∧ (img_height `mod` piece_width ≠ 0 ∨ img_width `mod` piece_width ≠ 0 →
     Puzzle.__init__ id img_height img_width piece_width
       = inl Puzzle.ConfigurationError)
  ∧ (0 < piece_width → 0 < img_height → 0 < img_width →
     img_height `mod` piece_width = 0 → img_width `mod` piece_width = 0 →
     ∃ puzzle : Puzzle.t,
       Puzzle.__init__ id img_height img_width piece_width = inr puzzle).
Proof.
  split; [|split].
  - intros puzzle (Hpw & Hh & Hw & Hr & Hc & ->)%init_inr. simpl.
    pose proof (Z.div_mod img_height piece_width) as Eh.
    pose proof (Z.div_mod img_width piece_width) as Ew.
    split; [done|]. split; [lia|]. split; [lia|].
    rewrite length_make_pieces. simpl. nia.
  - intros Hnd. unfold Puzzle.__init__.
    case_bool_decide; [done|]. by rewrite bool_decide_eq_true_2.
  - intros Hpw Hh Hw Hmh Hmw. unfold Puzzle.__init__.
    rewrite bool_decide_eq_false_2 by lia.
    rewrite bool_decide_eq_false_2 by (intros [?|?]; done).
    pose proof (Z.div_mod img_height piece_width) as Eh.
    pose proof (Z.div_mod img_width piece_width) as Ew.
    rewrite bool_decide_eq_false_2; [by eexists|]. simpl. nia.
Qed.

(** The image of the importer's test: 200 by 300 pixels cut into pieces of
    width 5 is a grid of 40 by 60, which is 2400 pieces; at piece width 7
    neither side divides and the construction fails. *)
Lemma puzzle_grid_size_and_pieces_witness :
  (∃ puzzle : Puzzle.t,
     Puzzle.__init__ 999 PuzzleTester.TEST_IMAGE_HEIGHT
       PuzzleTester.TEST_IMAGE_WIDTH 5 = inr puzzle
     ∧ Puzzle._grid_size puzzle = (40, 60)
     ∧ Z.of_nat (length (Puzzle._pieces puzzle)) = 2400)
  ∧ Puzzle.__init__ 999 PuzzleTester.TEST_IMAGE_HEIGHT
      PuzzleTester.TEST_IMAGE_WIDTH 7 = inl Puzzle.ConfigurationError.
Proof.
  split.
  - destruct (puzzle_grid_size_and_pieces 999 200 300 5) as (Hok & _ & Hex).
    destruct Hex as [puzzle Hp]; [lia | lia | lia | reflexivity | reflexivity |].
    exists puzzle. split; [exact Hp|].
    destruct (Hok puzzle Hp) as (Hg & _ & _ & Hlen).
    split; [exact Hg|]. rewrite Hlen, Hg. reflexivity.
  - apply (puzzle_grid_size_and_pieces 999 200 300 7). left. discriminate.
Defined.

(** ** PuzzleLocation: when the key is the key of the present fields *)

Lemma key_of_new (puzzle_id row column : Z) (self : PuzzleLocation.t) :
  PuzzleLocation.triple self = (puzzle_id, row, column) →
  (PuzzleLocation.key (PuzzleLocation.__init__ puzzle_id row column)).1
  = PuzzleLocation.fresh_key self.
Proof.
  intros Ht. rewrite key_of_coherent by apply init_coherent.
  apply fresh_key_of_triple. by rewrite Ht.
Qed.

Lemma step_keeps_unread (self : PuzzleLocation.t) (o : PuzzleLocation.op) :
  PuzzleLocation._key self = None → o ≠ PuzzleLocation.GetKey →
  PuzzleLocation._key (PuzzleLocation.step self o) = None.
Proof. intros Hk Ho. by destruct o. Qed.

Lemma run_keeps_unread (ops : list PuzzleLocation.op) :
  ∀ self : PuzzleLocation.t,
    PuzzleLocation._key self = None →
    Forall (λ o, o ≠ PuzzleLocation.GetKey) ops →
    PuzzleLocation._key (PuzzleLocation.run self ops) = None.
Proof.
  unfold PuzzleLocation.run.
  induction ops as [|o ops IH]; intros self Hk Hops; simpl; [exact Hk|].
  apply Forall_cons in Hops as [Ho Hops].
  apply IH; [by apply step_keeps_unread|exact Hops].
Qed.

(** X3: as long as [key] has not been read, a location may be assigned to
    freely: after any reads of [location] and assignments to [puzzle_id],
    [row] and [column] the cache is still empty, and the first read of
    [key] returns the key a new location built from the present fields
    would return. *)
Theorem key_follows_fields_until_first_read (self : PuzzleLocation.t)
    (ops : list PuzzleLocation.op) :
  PuzzleLocation._key self = None →
  Forall (λ o, o ≠ PuzzleLocation.GetKey) ops →
  let self' := PuzzleLocation.run self ops in
  PuzzleLocation._key self' = None
  ∧ (PuzzleLocation.key self').1
    = (PuzzleLocation.key
         (PuzzleLocation.__init__ (PuzzleLocation.puzzle_id self')
            (PuzzleLocation.row self') (PuzzleLocation.column self'))).1.
Proof.
  intros Hk Hops self'.
  assert (PuzzleLocation._key self' = None) as Hk'
    by by apply run_keeps_unread.
  split; [exact Hk'|].
  rewrite (key_of_new _ _ _ self') by reflexivity.
  apply key_of_coherent. by left.
Qed.

(** A location made as (1, 2, 3) and moved to (8, 5, 3) before its key is
    read answers "8_5_3". *)
Lemma key_follows_fields_until_first_read_witness :
  let self' :=
    PuzzleLocation.run (PuzzleLocation.__init__ 1 2 3)
      [PuzzleLocation.SetRow 5; PuzzleLocation.GetLocation;
       PuzzleLocation.SetPuzzleId 8] in
  PuzzleLocation._key self' = None
  ∧ (PuzzleLocation.key self').1
    = (PuzzleLocation.key (PuzzleLocation.__init__ 8 5 3)).1.
Proof.
  apply (key_follows_fields_until_first_read (PuzzleLocation.__init__ 1 2 3)
           [PuzzleLocation.SetRow 5; PuzzleLocation.GetLocation;
            PuzzleLocation.SetPuzzleId 8]).
  - reflexivity.
  - repeat constructor; discriminate.
Defined.

(** X4: once [key] has been read, it is the key of the present fields
    exactly as long as the triple is what it was at that read: after any
    later operations, [key] agrees with the key of a new location built
    from the present fields if and only if (puzzle_id, row, column) is
    unchanged, so every assignment that really changes a field leaves a
    key that names another location. *)
Theorem key_right_iff_triple_unchanged (self : PuzzleLocation.t)
    (ops : list PuzzleLocation.op) :
  PuzzleLocation.cache_coherent self →
  let self' := PuzzleLocation.run (PuzzleLocation.key self).2 ops in
  (PuzzleLocation.key self').1
  = (PuzzleLocation.key
       (PuzzleLocation.__init__ (PuzzleLocation.puzzle_id self')
          (PuzzleLocation.row self') (PuzzleLocation.column self'))).1
  ↔ PuzzleLocation.triple self' = PuzzleLocation.triple self.
Proof.
  intros Hcoh self'.
  pose proof (run_keeps_cache ops _ _ (key_caches self)) as Hk.
  fold self' in Hk.
  rewrite (key_of_new _ _ _ self') by reflexivity.
  rewrite (key_cached _ _ Hk). cbn [fst].
  rewrite (key_of_coherent self Hcoh).
  split.
  - intros Heq. symmetry. by apply fresh_key_inj.
  - intros Ht. by apply fresh_key_of_triple.
Qed.

(** Reading the key of (1, 2, 3), then [row = 5], then [row = 2] again:
    the triple is back, and so the key is right. *)
Lemma key_right_iff_triple_unchanged_witness :
  let self' :=
    PuzzleLocation.run (PuzzleLocation.key (PuzzleLocation.__init__ 1 2 3)).2
      [PuzzleLocation.SetRow 5; PuzzleLocation.SetRow 2] in
  (PuzzleLocation.key self').1
  = (PuzzleLocation.key
       (PuzzleLocation.__init__ (PuzzleLocation.puzzle_id self')
          (PuzzleLocation.row self') (PuzzleLocation.column self'))).1
  ↔ PuzzleLocation.triple self'
    = PuzzleLocation.triple (PuzzleLocation.__init__ 1 2 3).
Proof.
  apply (key_right_iff_triple_unchanged (PuzzleLocation.__init__ 1 2 3)
           [PuzzleLocation.SetRow 5; PuzzleLocation.SetRow 2]).
  left. reflexivity.
Defined.


(** ** Conversion to float64 *)

(** Below 2^53 in magnitude the conversion is exact. *)
Lemma float_exact (n : Z) : - Py.EXACT < n < Py.EXACT → Py.float n = Py.Ok n.
Proof.
  intros Hn. unfold Py.float, Py.round53.
  assert (Z.abs n < 2 ^ 53) as Ha by (change (2 ^ 53) with Py.EXACT; lia).
  assert (Z.log2 (Z.abs n) < 53) as Hlog.
  { destruct (decide (Z.abs n = 0)) as [->|Hne]; [done|].
    apply Z.log2_lt_pow2; lia. }
  rewrite (proj2 (Z.leb_le _ 53)) by lia.
  assert (2 ^ 53 ≤ Z.shiftl 1 1024) as Hbig by (vm_compute; discriminate).
  rewrite (proj2 (Z.leb_gt _ _)) by lia.
  f_equal. lia.
Qed.

(** The only exception of the conversion is [OverflowError]. *)
Lemma float_raises (n : Z) (e : Py.exn) :
  Py.float n = Py.Raise e → e = Py.OverflowError.
Proof. unfold Py.float. case_match; congruence. Qed.

Lemma fits_float64_exact (n : Z) :
  - Py.EXACT < n < Py.EXACT → fits_float64 n.
Proof. intros Hn. exists n. by apply float_exact. Qed.

(** ** Loops and array assignments *)

Section Loops.
Import numpy.

(** The invariant rule of a [for] loop over a range: while the invariant
    holds the body either re-establishes it or raises an exception in
    [E], and so does the loop. *)
Lemma for_range_inv {St : Type} (I : nat → St → Prop) (E : Py.exn → Prop)
    (body : nat → St → Py.result St) (n : nat) :
  ∀ (lo : nat) (s : St),
    I lo s →
    (∀ i s, (lo ≤ i < lo + n)%nat → I i s →
       match body i s with Py.Ok s' => I (S i) s' | Py.Raise e => E e end) →
    match Py.for_range (seq lo n) body s with
    | Py.Ok s' => I (lo + n)%nat s'
    | Py.Raise e => E e
    end.
Proof.
  induction n as [|n IH]; intros lo s Hs Hbody.
  - simpl. by rewrite Nat.add_0_r.
  - cbn [seq Py.for_range]. pose proof (Hbody lo s ltac:(lia) Hs) as Hstep.
    destruct (body lo s) as [s1|e]; [|exact Hstep].
    change (match Py.for_range (seq (S lo) n) body s1 with
            | Py.Ok s' => I (lo + S n)%nat s'
            | Py.Raise e => E e
            end).
    replace (lo + S n)%nat with (S lo + n)%nat by lia.
    apply IH; [exact Hstep|]. intros i s' Hi. apply Hbody. lia.
Qed.

Lemma for_range_from_0 {St : Type} (I : nat → St → Prop) (E : Py.exn → Prop)
    (body : nat → St → Py.result St) (n : nat) (s : St) :
  I 0%nat s →
  (∀ i s, (i < n)%nat → I i s →
     match body i s with Py.Ok s' => I (S i) s' | Py.Raise e => E e end) →
  match Py.for_range (Py.range 0 n) body s with
  | Py.Ok s' => I n s'
  | Py.Raise e => E e
  end.
Proof.
  intros Hs Hbody. unfold Py.range. rewrite Nat.sub_0_r.
  apply (for_range_inv I E body n 0 s Hs).
  intros i s' [_ Hi]. by apply Hbody.
Qed.

(** The rule for a loop whose body never raises. *)
Lemma for_range_total {St : Type} (I : nat → St → Prop)
    (body : nat → St → Py.result St) (n : nat) (s : St) :
  I 0%nat s →
  (∀ i s, (i < n)%nat → I i s →
     ∃ s', body i s = Py.Ok s' ∧ I (S i) s') →
  ∃ s', Py.for_range (Py.range 0 n) body s = Py.Ok s' ∧ I n s'.
Proof.
  intros Hs Hbody.
  pose proof (for_range_from_0 I (λ _, False) body n s Hs) as Hloop.
  destruct (Py.for_range (Py.range 0 n) body s) as [s'|e].
  - exists s'. split; [done|]. apply Hloop.
    intros i s1 Hi Hs1. by destruct (Hbody i s1 Hi Hs1) as (s2 & -> & ?).
  - destruct Hloop.
    intros i s1 Hi Hs1. by destruct (Hbody i s1 Hi Hs1) as (s2 & -> & ?).
Qed.

Lemma rect2_zeros (n m : nat) : rect2 n m (zeros2 n m).
Proof.
  split; [apply length_replicate|].
  apply Forall_replicate, length_replicate.
Qed.

Lemma rect3_zeros (n m k : nat) : rect3 n m k (zeros3 n m k).
Proof.
  split; [apply length_replicate|].
  apply Forall_replicate, rect2_zeros.
Qed.

Lemma rect2_lookup (n m : nat) (a : ndarray2) (i : nat) (r : list Z) :
  rect2 n m a → a !! i = Some r → length r = m.
Proof. intros [_ Ha] Hi. by apply (Forall_lookup_1 _ _ _ _ Ha Hi). Qed.

Lemma rect3_lookup (n m k : nat) (a : ndarray3) (i : nat) (p : ndarray2) :
  rect3 n m k a → a !! i = Some p → rect2 m k p.
Proof. intros [_ Ha] Hi. by apply (Forall_lookup_1 _ _ _ _ Ha Hi). Qed.

Lemma rect2_shape (n m : nat) (a : ndarray2) :
  rect2 n m a → (0 < n)%nat → shape2 a = (n, m).
Proof.
  intros [Hn Ha] Hpos. unfold shape2. rewrite Hn.
  destruct a as [|r a]; [simpl in Hn; lia|].
  simpl. by rewrite (Forall_inv Ha).
Qed.

Lemma rect3_shape (n m k : nat) (a : ndarray3) :
  rect3 n m k a → (0 < n)%nat → (0 < m)%nat → shape3 a = (n, m, k).
Proof.
  intros [Hn Ha] Hpos Hposm. unfold shape3. rewrite Hn.
  destruct a as [|p a]; [simpl in Hn; lia|].
  simpl. pose proof (Forall_inv Ha) as Hp.
  pose proof (rect2_shape _ _ _ Hp Hposm) as Hs.
  unfold shape2 in Hs. by injection Hs as -> ->.
Qed.

(** An assignment inside the array raises what the conversion of the
    value raises; when the value converts, it succeeds, keeps the shape,
    writes the converted value at the entry it names and leaves every
    other entry as it was. *)
Lemma setitem2_inside (n m : nat) (a : ndarray2) (i j : nat) (v : Z) :
  rect2 n m a → (i < n)%nat → (j < m)%nat →
  match Py.float v with
  | Py.Raise e => setitem2 a i j v = Py.Raise e
  | Py.Ok x =>
      ∃ a', setitem2 a i j v = Py.Ok a'
        ∧ rect2 n m a'
        ∧ getitem2 a' i j = Some x
        ∧ (∀ i' j', (i', j') ≠ (i, j) →
             getitem2 a' i' j' = getitem2 a i' j')
  end.
Proof.
  intros Ha Hi Hj. pose proof Ha as [Hn Hrows].
  destruct (lookup_lt_is_Some_2 a i) as [r Hr]; [lia|].
  pose proof (rect2_lookup _ _ _ _ _ Ha Hr) as Hlen.
  unfold setitem2, setitem1. rewrite Hr, decide_True by lia.
  destruct (Py.float v) as [x|e]; [|reflexivity].
  exists (<[i := <[j := x]> r]> a). unfold getitem2.
  split; [reflexivity|]. split; [|split].
  - split; [by rewrite length_insert|].
    apply Forall_insert; [done|]. by rewrite length_insert.
  - rewrite list_lookup_insert_eq by lia. simpl.
    apply list_lookup_insert_eq. lia.
  - intros i' j' Hne. destruct (decide (i' = i)) as [->|Hi'].
    + rewrite list_lookup_insert_eq, Hr by lia. simpl.
      apply list_lookup_insert_ne. congruence.
    + by rewrite list_lookup_insert_ne.
Qed.

Lemma setitem3_inside (n m k : nat) (a : ndarray3) (i j l : nat) (v : Z) :
  rect3 n m k a → (i < n)%nat → (j < m)%nat → (l < k)%nat →
  match Py.float v with
  | Py.Raise e => setitem3 a i j l v = Py.Raise e
  | Py.Ok x =>
      ∃ a', setitem3 a i j l v = Py.Ok a'
        ∧ rect3 n m k a'
        ∧ getitem3 a' i j l = Some x
        ∧ (∀ i' j' l', (i', j', l') ≠ (i, j, l) →
             getitem3 a' i' j' l' = getitem3 a i' j' l')
  end.
Proof.
  intros Ha Hi Hj Hl. pose proof Ha as [Hn Hplanes].
  destruct (lookup_lt_is_Some_2 a i) as [p Hp]; [lia|].
  pose proof (rect3_lookup _ _ _ _ _ _ Ha Hp) as Hrect.
  pose proof (setitem2_inside m k p j l v Hrect Hj Hl) as Hcell.
  unfold setitem3. rewrite Hp.
  destruct (Py.float v) as [x|e]; [|by rewrite Hcell].
  destruct Hcell as (p' & -> & Hrect' & Hget & Hframe).
  exists (<[i := p']> a). unfold getitem3.
  split; [reflexivity|]. split; [|split].
  - split; [by rewrite length_insert|]. by apply Forall_insert.
  - rewrite list_lookup_insert_eq by lia. done.
  - intros i' j' l' Hne. destruct (decide (i' = i)) as [->|Hi'].
    + rewrite list_lookup_insert_eq, Hp by lia. simpl.
      apply Hframe. congruence.
    + by rewrite list_lookup_insert_ne.
Qed.

End Loops.

(** ** build_pixel_list *)

Section PixelList.
Import numpy PuzzleTester.

(** The loops of [build_pixel_list]: they raise only what a conversion
    raises, and when they return, every entry holds the float64 of the
    value assigned to it. *)
Lemma fill_pixels_spec (E : Py.exn → Prop) (start_value : Z)
    (pixel_offset : nat) (pixels : ndarray2) :
  let f := λ i j : nat,
    start_value + Z.of_nat i * Z.of_nat pixel_offset + Z.of_nat j in
  rect2 PIECE_WIDTH NUMB_PIXEL_DIMENSIONS pixels →
  (∀ i j e, (i < PIECE_WIDTH)%nat → (j < NUMB_PIXEL_DIMENSIONS)%nat →
     Py.float (f i j) = Py.Raise e → E e) →
  match fill_pixels start_value pixel_offset pixels with
  | Py.Raise e => E e
  | Py.Ok pixels' =>
      rect2 PIECE_WIDTH NUMB_PIXEL_DIMENSIONS pixels'
      ∧ ∀ i j, (i < PIECE_WIDTH)%nat → (j < NUMB_PIXEL_DIMENSIONS)%nat →
          ∃ x, Py.float (f i j) = Py.Ok x ∧ getitem2 pixels' i j = Some x
  end.
Proof.
  intros f Hrect HE. unfold fill_pixels.
  (* rows before [i] are written *)
  set (I := λ (i : nat) (px : ndarray2),
         rect2 PIECE_WIDTH NUMB_PIXEL_DIMENSIONS px
         ∧ ∀ i' j, (i' < i)%nat → (j < NUMB_PIXEL_DIMENSIONS)%nat →
             ∃ x, Py.float (f i' j) = Py.Ok x ∧ getitem2 px i' j = Some x).
  pose proof (for_range_from_0 I E
    (λ i pixels,
       let pixel_start := start_value + Z.of_nat i * Z.of_nat pixel_offset in
       Py.for_range (Py.range 0 NUMB_PIXEL_DIMENSIONS) (λ j pixels,
         setitem2 pixels i j (pixel_start + Z.of_nat j)) pixels)
    PIECE_WIDTH pixels) as Houter.
  match type of Houter with _ → _ → ?concl => assert concl as Hloop end.
  { apply Houter; clear Houter.
    - split; [done|]. intros i' j Hi'. lia.
    - intros i px Hi [Hpx Hrows]. cbv zeta.
      (* and of row [i], the entries before [j] *)
      set (J := λ (j : nat) (px : ndarray2),
             rect2 PIECE_WIDTH NUMB_PIXEL_DIMENSIONS px
             ∧ (∀ i' j', (i' < i)%nat → (j' < NUMB_PIXEL_DIMENSIONS)%nat →
                  ∃ x, Py.float (f i' j') = Py.Ok x
                       ∧ getitem2 px i' j' = Some x)
             ∧ (∀ j', (j' < j)%nat →
                  ∃ x, Py.float (f i j') = Py.Ok x
                       ∧ getitem2 px i j' = Some x)).
      pose proof (for_range_from_0 J E
        (λ j pixels, setitem2 pixels i j
           (start_value + Z.of_nat i * Z.of_nat pixel_offset + Z.of_nat j))
        NUMB_PIXEL_DIMENSIONS px) as Hinner.
      match type of Hinner with _ → _ → ?concl => assert concl as Hrow end.
      { apply Hinner; clear Hinner.
        - split; [done|]. split; [done|]. intros j' Hj'. lia.
        - intros j px1 Hj (Hpx1 & Hrows1 & Hrow1).
          pose proof (setitem2_inside _ _ px1 i j (f i j) Hpx1 Hi Hj) as Hcell.
          fold (f i j).
          destruct (Py.float (f i j)) as [x|e] eqn:Hf.
          + destruct Hcell as (px2 & -> & Hpx2 & Hnew & Hframe).
            split; [done|]. split.
            * intros i' j' Hi' Hj'.
              destruct (Hrows1 i' j' Hi' Hj') as (y & Hy & Hget).
              exists y. split; [done|]. rewrite Hframe; [done|].
              intros [= -> ->]. lia.
            * intros j' Hj'. destruct (decide (j' = j)) as [->|Hne].
              { exists x. done. }
              destruct (Hrow1 j' ltac:(lia)) as (y & Hy & Hget).
              exists y. split; [done|]. rewrite Hframe; [done|]. congruence.
          + rewrite Hcell. by apply (HE i j). }
      clear Hinner.
      destruct (Py.for_range _ _ px) as [px'|e]; [|exact Hrow].
      destruct Hrow as (Hpx' & Hrows' & Hrow). split; [done|].
      intros i' j Hi' Hj. destruct (decide (i' = i)) as [->|Hne].
      + by apply Hrow.
      + apply Hrows'; [lia|done]. }
  clear Houter.
  destruct (Py.for_range _ _ pixels) as [pixels'|e]; [|exact Hloop].
  destruct Hloop as [Hrect' Hget]. split; [done|].
  intros i j Hi Hj. by apply Hget.
Qed.

Lemma rect2_reverse (n m : nat) (a : ndarray2) :
  rect2 n m a → rect2 n m (flip a).
Proof.
  intros [Hn Ha]. unfold flip. split; [by rewrite length_reverse|].
  by apply Forall_reverse.
Qed.

Lemma getitem2_reverse (n m : nat) (a : ndarray2) (i j : nat) :
  rect2 n m a → (i < n)%nat →
  getitem2 (flip a) i j = getitem2 a (n - 1 - i) j.
Proof.
  intros [Hn _] Hi. unfold getitem2, flip.
  rewrite reverse_lookup by lia. rewrite Hn.
  by replace (n - S i)%nat with (n - 1 - i)%nat by lia.
Qed.

(** Both directions of [build_pixel_list] at once: they raise together,
    only what a conversion raises, and return together. *)
Lemma build_pixel_list_spec (E : Py.exn → Prop) (start_value : Z)
    (is_row : bool) :
  (∀ i j e, (i < PIECE_WIDTH)%nat → (j < NUMB_PIXEL_DIMENSIONS)%nat →
     Py.float (pixel_value start_value is_row i j) = Py.Raise e → E e) →
  match build_pixel_list start_value is_row false with
  | Py.Raise e => build_pixel_list start_value is_row true = Py.Raise e ∧ E e
  | Py.Ok pixels =>
      build_pixel_list start_value is_row true = Py.Ok (flip pixels)
      ∧ rect2 PIECE_WIDTH NUMB_PIXEL_DIMENSIONS pixels
      ∧ ∀ i j, (i < PIECE_WIDTH)%nat → (j < NUMB_PIXEL_DIMENSIONS)%nat →
          ∃ x, Py.float (pixel_value start_value is_row i j) = Py.Ok x
               ∧ getitem2 pixels i j = Some x
  end.
Proof.
  intros HE. unfold build_pixel_list. cbv zeta.
  pose proof (fill_pixels_spec E start_value
                (if is_row then NUMB_PIXEL_DIMENSIONS
                 else row_to_row_step_size)
                (zeros2 PIECE_WIDTH NUMB_PIXEL_DIMENSIONS)
                (rect2_zeros _ _) HE) as Hfill.
  destruct (fill_pixels _ _ _) as [pixels|e]; [|done].
  destruct Hfill as [Hrect Hget]. done.
Qed.

Lemma build_pixel_list_returns (start_value : Z) (is_row : bool) :
  pixel_values_fit start_value is_row →
  ∃ pixels, build_pixel_list start_value is_row false = Py.Ok pixels
    ∧ build_pixel_list start_value is_row true = Py.Ok (flip pixels)
    ∧ rect2 PIECE_WIDTH NUMB_PIXEL_DIMENSIONS pixels
    ∧ ∀ i j, (i < PIECE_WIDTH)%nat → (j < NUMB_PIXEL_DIMENSIONS)%nat →
        ∃ x, Py.float (pixel_value start_value is_row i j) = Py.Ok x
             ∧ getitem2 pixels i j = Some x.
Proof.
  intros Hfit.
  pose proof (build_pixel_list_spec (λ _, False) start_value is_row) as Hspec.
  destruct (build_pixel_list start_value is_row false) as [pixels|e].
  - exists pixels. split; [done|]. apply Hspec.
    intros i j e Hi Hj He. destruct (Hfit i j Hi Hj) as [x Hx]. congruence.
  - destruct Hspec as [_ []].
    intros i j e' Hi Hj He. destruct (Hfit i j Hi Hj) as [x Hx]. congruence.
Qed.

Lemma build_pixel_list_overflows (start_value : Z) (is_row : bool) :
  ¬ pixel_values_fit start_value is_row →
  build_pixel_list start_value is_row false = Py.Raise Py.OverflowError
  ∧ build_pixel_list start_value is_row true = Py.Raise Py.OverflowError.
Proof.
  intros Hnot.
  pose proof (build_pixel_list_spec (λ e, e = Py.OverflowError)
                start_value is_row) as Hspec.
  destruct (build_pixel_list start_value is_row false) as [pixels|e].
  - destruct Hnot. intros i j Hi Hj.
    destruct Hspec as (_ & _ & Hget).
    { intros ? ? e _ _ He. by apply float_raises in He. }
    destruct (Hget i j Hi Hj) as (x & Hx & _). by exists x.
  - destruct Hspec as [Hrev ->]; [|done].
    intros ? ? e' _ _ He. by apply float_raises in He.
Qed.

Lemma build_pixel_list_flip (start_value : Z) (is_row : bool) :
  build_pixel_list start_value is_row true
  = flip <$> build_pixel_list start_value is_row false.
Proof.
  pose proof (build_pixel_list_spec (λ _, True) start_value is_row) as Hspec.
  destruct (build_pixel_list start_value is_row false) as [pixels|e].
  - by destruct Hspec as [-> _].
  - by destruct Hspec as [-> _].
Qed.

Lemma pixel_value_bounds (start_value : Z) (is_row : bool) (i j : nat) :
  (i < PIECE_WIDTH)%nat → (j < NUMB_PIXEL_DIMENSIONS)%nat →
  start_value ≤ pixel_value start_value is_row i j
  ≤ pixel_value start_value is_row 4 2.
Proof.
  unfold pixel_value, PIECE_WIDTH, NUMB_PIXEL_DIMENSIONS.
  change row_to_row_step_size with 45%nat.
  intros Hi Hj. destruct is_row; lia.
Qed.

(** Values that stay below 2^53 in magnitude all convert, to themselves. *)
Lemma pixel_values_exact (start_value : Z) (is_row : bool) :
  - Py.EXACT < start_value →
  pixel_value start_value is_row 4 2 < Py.EXACT →
  ∀ i j, (i < PIECE_WIDTH)%nat → (j < NUMB_PIXEL_DIMENSIONS)%nat →
    Py.float (pixel_value start_value is_row i j)
    = Py.Ok (pixel_value start_value is_row i j).
Proof.
  intros Hlo Hhi i j Hi Hj.
  pose proof (pixel_value_bounds start_value is_row i j Hi Hj).
  apply float_exact. lia.
Qed.

Lemma build_pixel_list_exact (start_value : Z) (is_row : bool) :
  - Py.EXACT < start_value →
  pixel_value start_value is_row 4 2 < Py.EXACT →
  ∃ pixels, build_pixel_list start_value is_row false = Py.Ok pixels
    ∧ build_pixel_list start_value is_row true = Py.Ok (flip pixels)
    ∧ rect2 PIECE_WIDTH NUMB_PIXEL_DIMENSIONS pixels
    ∧ ∀ i j, (i < PIECE_WIDTH)%nat → (j < NUMB_PIXEL_DIMENSIONS)%nat →
        getitem2 pixels i j = Some (pixel_value start_value is_row i j).
Proof.
  intros Hlo Hhi.
  pose proof (pixel_values_exact start_value is_row Hlo Hhi) as Hexact.
  destruct (build_pixel_list_returns start_value is_row)
    as (pixels & Hfwd & Hrev & Hrect & Hget).
  { intros i j Hi Hj. eexists. by apply Hexact. }
  exists pixels. split; [done|]. split; [done|]. split; [done|].
  intros i j Hi Hj. destruct (Hget i j Hi Hj) as (x & Hx & ->).
  rewrite Hexact in Hx by done. congruence.
Qed.

End PixelList.

(** C1, as the code has it: for every start value and either direction
    the call with [reverse_list=True] has the outcome of the call with
    [reverse_list=False], reversed.  When each of the fifteen values
    [start_value + i * pixel_offset + j] can be converted to float64, both
    calls return, the one exactly the reverse of the other: pixel [i] of
    it is pixel [PIECE_WIDTH - 1 - i] of the other.  When one of the values
    cannot, both calls raise [OverflowError]. *)
Theorem build_pixel_list_reversed (start_value : Z) (is_row : bool) :
  PuzzleTester.build_pixel_list start_value is_row true
  = reverse <$> PuzzleTester.build_pixel_list start_value is_row false
  ∧ (pixel_values_fit start_value is_row →
     ∃ pixels : list (list Z),
       PuzzleTester.build_pixel_list start_value is_row false = Py.Ok pixels
       ∧ PuzzleTester.build_pixel_list start_value is_row true
         = Py.Ok (reverse pixels)
       ∧ ∀ i : nat, (i < PuzzleTester.PIECE_WIDTH)%nat →
           reverse pixels !! i
           = pixels !! (PuzzleTester.PIECE_WIDTH - 1 - i)%nat)
  ∧ (¬ pixel_values_fit start_value is_row →
     PuzzleTester.build_pixel_list start_value is_row false
       = Py.Raise Py.OverflowError
     ∧ PuzzleTester.build_pixel_list start_value is_row true
       = Py.Raise Py.OverflowError).
Proof.
  split; [apply build_pixel_list_flip|]. split.
  - intros Hfit.
    destruct (build_pixel_list_returns start_value is_row Hfit)
      as (pixels & Hfwd & Hrev & [Hlen _] & _).
    exists pixels. split; [exact Hfwd|]. split; [exact Hrev|].
    intros i Hi. rewrite reverse_lookup by lia. rewrite Hlen.
    by replace (PuzzleTester.PIECE_WIDTH - S i)%nat
      with (PuzzleTester.PIECE_WIDTH - 1 - i)%nat by lia.
  - apply build_pixel_list_overflows.
Qed.

(** The row starting at 10: first pixel (10, 11, 12), last (22, 23, 24),
    and the reversed list starts with the last. *)
Lemma build_pixel_list_reversed_witness :
  ∃ pixels : list (list Z),
    PuzzleTester.build_pixel_list 10 true false = Py.Ok pixels
    ∧ PuzzleTester.build_pixel_list 10 true true = Py.Ok (reverse pixels)
    ∧ pixels !! 0%nat = Some [10; 11; 12]
    ∧ reverse pixels !! 0%nat = Some [22; 23; 24].
Proof.
  destruct (build_pixel_list_reversed 10 true) as (_ & Hfit & _).
  destruct Hfit as (pixels & Hfwd & Hrev & Hat).
  { intros i j Hi Hj. eexists.
    apply pixel_values_exact; [reflexivity|reflexivity|done|done]. }
  exists pixels. split; [exact Hfwd|]. split; [exact Hrev|].
  assert (pixels = [[10; 11; 12]; [13; 14; 15]; [16; 17; 18];
                    [19; 20; 21]; [22; 23; 24]]) as ->.
  { assert (Py.Ok pixels = PuzzleTester.build_pixel_list 10 true false)
      as Heq by done.
    vm_compute in Heq. by injection Heq. }
  split; reflexivity.
Defined.

(** C1 as stated fails where float64 ends: from the start value 10^400
    neither call returns a sequence, both raise [OverflowError]. *)
Lemma build_pixel_list_beyond_float64 :
  PuzzleTester.build_pixel_list (10 ^ 400) true false
    = Py.Raise Py.OverflowError
  ∧ PuzzleTester.build_pixel_list (10 ^ 400) true true
    = Py.Raise Py.OverflowError.
Proof. split; vm_compute; reflexivity. Qed.

(** C7, as the code has it: whatever the direction and the reversal flag,
    [build_pixel_list] returns an array of shape
    (PIECE_WIDTH, NUMB_PIXEL_DIMENSIONS) = (5, 3), five pixels of three
    channels each, for every start value whose fifteen values
    [start_value + i * pixel_offset + j] can be converted to float64;
    whenever it returns, that is the shape of what it returns; and for
    every other start value it raises [OverflowError]. *)
Theorem build_pixel_list_shape (start_value : Z) (is_row reverse_list : bool) :
  (pixel_values_fit start_value is_row →
   ∃ pixels : list (list Z),
     PuzzleTester.build_pixel_list start_value is_row reverse_list
       = Py.Ok pixels
     ∧ numpy.shape2 pixels
       = (PuzzleTester.PIECE_WIDTH, PuzzleTester.NUMB_PIXEL_DIMENSIONS)
     ∧ numpy.shape2 pixels = (5, 3)%nat
     ∧ length pixels = 5%nat
     ∧ Forall (λ pixel, length pixel = 3%nat) pixels)
  ∧ (∀ pixels : list (list Z),
       PuzzleTester.build_pixel_list start_value is_row reverse_list
         = Py.Ok pixels →
       numpy.shape2 pixels = (5, 3)%nat
       ∧ length pixels = 5%nat
       ∧ Forall (λ pixel, length pixel = 3%nat) pixels)
  ∧ (¬ pixel_values_fit start_value is_row →
     PuzzleTester.build_pixel_list start_value is_row reverse_list
       = Py.Raise Py.OverflowError).
Proof.
  assert (∀ a, numpy.rect2 5 3 a →
            numpy.shape2 a = (5, 3)%nat ∧ length a = 5%nat
            ∧ Forall (λ pixel, length pixel = 3%nat) a) as Hshape.
  { intros a Ha. split; [apply rect2_shape in Ha; [done|lia]|].
    destruct Ha. done. }
  split; [|split].
  - intros Hfit.
    destruct (build_pixel_list_returns start_value is_row Hfit)
      as (pixels & Hfwd & Hrev & Hrect & _).
    destruct reverse_list.
    + exists (numpy.flip pixels). split; [exact Hrev|].
      apply rect2_reverse in Hrect.
      destruct (Hshape _ Hrect) as (? & ? & ?). done.
    + exists pixels. split; [exact Hfwd|].
      destruct (Hshape _ Hrect) as (? & ? & ?). done.
  - intros pixels Hret.
    pose proof (build_pixel_list_spec (λ _, True) start_value is_row
                  ltac:(done)) as Hspec.
    destruct (PuzzleTester.build_pixel_list start_value is_row false)
      as [forward|e] eqn:Hfwd.
    + destruct Hspec as (Hrev & Hrect & _).
      destruct reverse_list.
      * rewrite Hrev in Hret. injection Hret as <-.
        apply Hshape. by apply rect2_reverse.
      * rewrite Hfwd in Hret. injection Hret as <-. by apply Hshape.
    + destruct Hspec as [Hrev _].
      destruct reverse_list; congruence.
  - intros Hnot.
    destruct (build_pixel_list_overflows start_value is_row Hnot).
    by destruct reverse_list.
Qed.

(** The column of pixels from 0, reversed, is an array of shape (5, 3). *)
Lemma build_pixel_list_shape_witness :
  ∃ pixels : list (list Z),
    PuzzleTester.build_pixel_list 0 false true = Py.Ok pixels
    ∧ numpy.shape2 pixels = (5, 3)%nat.
Proof.
  destruct (build_pixel_list_shape 0 false true) as (Hfit & _ & _).
  destruct Hfit as (pixels & Hret & _ & Hshape & _).
  { intros i j Hi Hj. eexists.
    apply pixel_values_exact; [reflexivity|reflexivity|done|done]. }
  exists pixels. split; [exact Hret|exact Hshape].
Defined.

(** C7 as stated fails where float64 ends: from the start values 2^1024
    and -(10^400) no array is returned, the call raises
    [OverflowError]. *)
Lemma build_pixel_list_returns_no_array :
  PuzzleTester.build_pixel_list (2 ^ 1024) true false
    = Py.Raise Py.OverflowError
  ∧ PuzzleTester.build_pixel_list (- 10 ^ 400) false true
    = Py.Raise Py.OverflowError.
Proof. split; vm_compute; reflexivity. Qed.

(** ** build_dummy_array *)

Lemma offset3_inj (m k i j l i' j' l' : nat) :
  (j < m)%nat → (j' < m)%nat → (l < k)%nat → (l' < k)%nat →
  numpy.offset3 m k i j l = numpy.offset3 m k i' j' l' →
  (i, j, l) = (i', j', l').
Proof.
  unfold numpy.offset3. intros Hj Hj' Hl Hl' Heq.
  assert (i * m + j = i' * m + j')%nat as Hrow by nia.
  assert (l = l') as -> by nia.
  assert (i = i') as -> by nia.
  assert (j = j') as -> by nia.
  reflexivity.
Qed.

Lemma offset3_bound (n m k i j l : nat) :
  (i < n)%nat → (j < m)%nat → (l < k)%nat →
  (numpy.offset3 m k i j l < n * m * k)%nat.
Proof.
  unfold numpy.offset3. intros Hi Hj Hl.
  assert (i * m + j + 1 ≤ n * m)%nat by nia. nia.
Qed.

Section Populate.
Import numpy PuzzleTester.
Variables (n m k : nat) (val0 : Z).
Hypothesis val0_lower : - Py.EXACT < val0.
Hypothesis val0_upper : val0 + Z.of_nat (n * m * k) ≤ Py.EXACT.

Lemma populated_step (st : ndarray3 * Z) (i j l : nat) :
  (i < n)%nat → (j < m)%nat → (l < k)%nat →
  populated n m k val0 (offset3 m k i j l) st →
  ∃ st', (arr' ← setitem3 st.1 i j l st.2; Py.Ok (arr', st.2 + 1)) = Py.Ok st'
    ∧ populated n m k val0 (offset3 m k i j (S l)) st'.
Proof.
  intros Hi Hj Hl (Hrect & Hval & Hdone).
  pose proof (offset3_bound n m k i j l Hi Hj Hl) as Hbound.
  pose proof (setitem3_inside n m k st.1 i j l st.2 Hrect Hi Hj Hl) as Hcell.
  rewrite float_exact in Hcell by lia.
  destruct Hcell as (arr' & Hset & Hrect' & Hnew & Hframe).
  exists (arr', st.2 + 1). rewrite Hset. split; [done|].
  split; [done|]. split.
  { simpl. rewrite Hval. unfold offset3. lia. }
  intros i' j' l' Hi' Hj' Hl' Hlt. simpl.
  destruct (decide ((i', j', l') = (i, j, l))) as [[= -> -> ->]|Hne].
  - by rewrite Hnew, Hval.
  - rewrite Hframe by done. apply Hdone; try done.
    assert (offset3 m k i' j' l' ≠ offset3 m k i j l).
    { intros Heq. by apply offset3_inj in Heq. }
    unfold offset3 in *. lia.
Qed.

Lemma populate_entries (arr : ndarray3) :
  rect3 n m k arr → shape3 arr = (n, m, k) →
  ∃ arr', populate arr val0 = Py.Ok (arr', val0 + Z.of_nat (n * m * k))
    ∧ rect3 n m k arr'
    ∧ ∀ i j l, (i < n)%nat → (j < m)%nat → (l < k)%nat →
        getitem3 arr' i j l = Some (val0 + Z.of_nat (offset3 m k i j l)).
Proof.
  intros Hrect Hshape. unfold populate. rewrite Hshape. cbn [fst snd].
  destruct (for_range_total (λ i, populated n m k val0 (offset3 m k i 0 0))
    (λ row st,
       Py.for_range (Py.range 0 m) (λ col st,
         Py.for_range (Py.range 0 k) (λ dim '(arr, val),
           arr' ← setitem3 arr row col dim val;
           Py.Ok (arr', val + 1)) st) st)
    n (arr, val0)) as ([arr' val'] & Hrun & Hrect' & Hval & Hget).
  - split; [done|]. split; [simpl; unfold offset3; lia|].
    intros i j l _ _ _ Hlt. unfold offset3 in Hlt. lia.
  - intros i st Hi Hst.
    destruct (for_range_total (λ j, populated n m k val0 (offset3 m k i j 0))
      (λ col st,
         Py.for_range (Py.range 0 k) (λ dim '(arr, val),
           arr' ← setitem3 arr i col dim val;
           Py.Ok (arr', val + 1)) st)
      m st) as (st' & Hrun & Hst'); [done| |].
    + intros j st1 Hj Hst1.
      destruct (for_range_total (λ l, populated n m k val0 (offset3 m k i j l))
        (λ dim '(arr, val),
           arr' ← setitem3 arr i j dim val; Py.Ok (arr', val + 1))
        k st1) as (st2 & Hrun & Hst2); [done| |].
      * intros l [a v] Hl Hst2. by apply (populated_step (a, v)).
      * exists st2. split; [exact Hrun|].
        by replace (offset3 m k i (S j) 0) with (offset3 m k i j k)
          by (unfold offset3; lia).
    + exists st'. split; [exact Hrun|].
      by replace (offset3 m k (S i) 0 0) with (offset3 m k i m 0)
        by (unfold offset3; lia).
  - exists arr'. cbn [fst snd] in *. split.
    { rewrite Hrun, Hval. do 3 f_equal. unfold offset3. lia. }
    split; [done|]. intros i j l Hi Hj Hl. apply Hget; try done.
    pose proof (offset3_bound n m k i j l Hi Hj Hl). unfold offset3 in *. lia.
Qed.

End Populate.

Section RowMajor.
Import numpy PuzzleTester.

Lemma lookup_concat_uniform {A : Type} (m : nat) (ls : list (list A)) :
  Forall (λ r, length r = m) ls →
  ∀ i j, (j < m)%nat → concat ls !! (i * m + j)%nat = ls !! i ≫= (.!! j).
Proof.
  induction 1 as [|r ls Hr _ IH]; intros i j Hj; [done|].
  destruct i as [|i]; simpl.
  - apply lookup_app_l. lia.
  - rewrite lookup_app_r by lia.
    replace (m + i * m + j - length r)%nat with (i * m + j)%nat by lia.
    by apply IH.
Qed.

Lemma length_concat_uniform {A : Type} (m : nat) (ls : list (list A)) :
  Forall (λ r, length r = m) ls → length (concat ls) = (length ls * m)%nat.
Proof.
  induction 1 as [|r ls Hr _ IH]; [done|].
  simpl. rewrite length_app, IH, Hr. lia.
Qed.

Lemma rect3_planes (n m k : nat) (a : ndarray3) :
  rect3 n m k a →
  Forall (λ p, length p = m) a ∧ Forall (λ r, length r = k) (concat a).
Proof.
  intros [_ Ha]. split.
  - eapply Forall_impl; [exact Ha|]. by intros p [? _].
  - apply Forall_concat. eapply Forall_impl; [exact Ha|]. by intros p [_ ?].
Qed.

Lemma length_ravel3 (n m k : nat) (a : ndarray3) :
  rect3 n m k a → length (ravel3 a) = (n * m * k)%nat.
Proof.
  intros Ha. destruct (rect3_planes _ _ _ _ Ha) as [Hm Hk].
  unfold ravel3.
  rewrite (length_concat_uniform k) by done.
  rewrite (length_concat_uniform m) by done.
  destruct Ha as [-> _]. done.
Qed.

(** Entry [(i, j, l)] is the one at position [offset3 m k i j l] of the
    row-major traversal. *)
Lemma ravel3_lookup (n m k : nat) (a : ndarray3) (i j l : nat) :
  rect3 n m k a → (j < m)%nat → (l < k)%nat →
  ravel3 a !! offset3 m k i j l = getitem3 a i j l.
Proof.
  intros Ha Hj Hl. destruct (rect3_planes _ _ _ _ Ha) as [Hm Hk].
  unfold ravel3, offset3, getitem3, getitem2.
  rewrite (lookup_concat_uniform k) by done.
  rewrite (lookup_concat_uniform m) by done.
  by destruct (a !! i).
Qed.

Lemma ravel3_counts (n m k : nat) (a : ndarray3) (v : Z) :
  rect3 n m k a →
  (∀ i j l, (i < n)%nat → (j < m)%nat → (l < k)%nat →
     getitem3 a i j l = Some (v + Z.of_nat (offset3 m k i j l))) →
  ∀ K, (K < n * m * k)%nat → ravel3 a !! K = Some (v + Z.of_nat K).
Proof.
  intros Ha Hget K HK.
  assert (0 < k)%nat as Hk by nia.
  assert (0 < m)%nat as Hm by nia.
  pose proof (Nat.div_mod_eq K k) as EK.
  pose proof (Nat.mod_upper_bound K k ltac:(lia)) as Hl.
  pose proof (Nat.div_mod_eq (K / k) m) as Eq.
  pose proof (Nat.mod_upper_bound (K / k) m ltac:(lia)) as Hj.
  assert (K / k / m < n)%nat as Hi.
  { apply Nat.Div0.div_lt_upper_bound, Nat.Div0.div_lt_upper_bound. lia. }
  assert (K = offset3 m k (K / k / m) ((K / k) `mod` m) (K `mod` k)) as HKo.
  { unfold offset3.
    replace (K / k / m * m + (K / k) `mod` m)%nat with (K / k)%nat by lia.
    lia. }
  rewrite HKo at 1. rewrite (ravel3_lookup n) by done.
  rewrite Hget by done. by rewrite <- HKo.
Qed.

End RowMajor.

(** On a numpy that truncates float extents, [build_dummy_array] returns,
    and what it returns is the 15 x 15 x 3 array that holds at every entry
    its own row-major position. *)
Lemma build_dummy_array_populated :
  ∃ arr : list (list (list Z)),
    PuzzleTester.build_dummy_array numpy.Truncated = Py.Ok arr
    ∧ numpy.rect3 15 15 3 arr
    ∧ ∀ i j l : nat, (i < 15)%nat → (j < 15)%nat → (l < 3)%nat →
        numpy.getitem3 arr i j l = Some (0 + Z.of_nat (numpy.offset3 15 3 i j l)).
Proof.
  unfold PuzzleTester.build_dummy_array. cbv zeta.
  change (numpy.zeros numpy.Truncated _) with (Py.Ok (numpy.zeros3 15 15 3)).
  destruct (populate_entries 15 15 3 PuzzleTester.TEST_ARRAY_FIRST_PIXEL_VALUE
              ltac:(reflexivity) ltac:(vm_compute; discriminate)
              (numpy.zeros3 15 15 3))
    as (arr & Hrun & Hrect & Hget); [apply rect3_zeros|reflexivity|].
  exists arr.
  change (Py.Ok (numpy.zeros3 15 15 3) ≫= ?f) with (f (numpy.zeros3 15 15 3)).
  cbv beta. rewrite Hrun. split; [reflexivity|]. split; [exact Hrect|].
  exact Hget.
Qed.

(** C2, where the code goes wrong: the first two extents handed to
    [numpy.zeros] are the float 15.0, [piece_width * math.sqrt(numb_pieces)]
    with no [int(...)] around it, and a numpy that refuses float extents
    (1.12 and later) raises [TypeError]: no array is returned. *)
Theorem build_dummy_array_float_extent_refused :
  Py.mul (Py.Int (Z.of_nat PuzzleTester.PIECE_WIDTH))
    (Py.sqrt (Z.of_nat PuzzleTester.NUMB_PUZZLE_PIECES)) = Py.Float 15
  ∧ PuzzleTester.build_dummy_array numpy.Refused = Py.Raise Py.TypeError.
Proof. split; reflexivity. Qed.

(** X9: on a numpy that truncates float extents (before 1.12),
    [build_dummy_array] returns an array of shape 15 x 15 x 3 whose entry
    at every valid (row, col, dim) is row * 45 + col * 3 + dim, where 45 is
    [row_to_row_step_size()]; read in row-major order its 675 entries
    start at [TEST_ARRAY_FIRST_PIXEL_VALUE] = 0, each entry is its
    predecessor plus one, and so they increase strictly. *)
Theorem build_dummy_array_truncated_row_major :
  ∃ arr : list (list (list Z)),
    PuzzleTester.build_dummy_array numpy.Truncated = Py.Ok arr
    ∧ numpy.shape3 arr = (15, 15, 3)%nat
    ∧ numpy.rect3 15 15 3 arr
    ∧ PuzzleTester.row_to_row_step_size = 45%nat
    ∧ (∀ row col dim : nat, (row < 15)%nat → (col < 15)%nat → (dim < 3)%nat →
         numpy.getitem3 arr row col dim
         = Some (Z.of_nat row * 45 + Z.of_nat col * 3 + Z.of_nat dim))
    ∧ length (numpy.ravel3 arr) = 675%nat
    ∧ numpy.ravel3 arr !! 0%nat
      = Some PuzzleTester.TEST_ARRAY_FIRST_PIXEL_VALUE
    ∧ PuzzleTester.TEST_ARRAY_FIRST_PIXEL_VALUE = 0
    ∧ (∀ (K : nat) (x y : Z),
         numpy.ravel3 arr !! K = Some x →
         numpy.ravel3 arr !! S K = Some y → y = x + 1)
    ∧ (∀ (K K' : nat) (x y : Z), (K < K')%nat →
         numpy.ravel3 arr !! K = Some x →
         numpy.ravel3 arr !! K' = Some y → x < y).
Proof.
  destruct build_dummy_array_populated as (arr & Hrun & Hrect & Hget).
  assert (∀ K x, numpy.ravel3 arr !! K = Some x → x = Z.of_nat K) as Hat.
  { intros K x HK.
    assert (K < 675)%nat as Hlt.
    { apply lookup_lt_Some in HK. by rewrite (length_ravel3 15 15 3) in HK. }
    rewrite (ravel3_counts 15 15 3 arr 0 Hrect Hget K Hlt) in HK.
    injection HK as <-. lia. }
  exists arr.
  split; [exact Hrun|]. split; [apply rect3_shape; [exact Hrect|lia..]|].
  split; [exact Hrect|]. split; [reflexivity|]. split.
  { intros row col dim Hr Hc Hd. rewrite (Hget row col dim Hr Hc Hd).
    unfold numpy.offset3. f_equal. lia. }
  split; [exact (length_ravel3 15 15 3 arr Hrect)|]. split.
  { rewrite (ravel3_counts 15 15 3 arr 0 Hrect Hget 0%nat) by lia.
    reflexivity. }
  split; [reflexivity|]. split.
  - intros K x y Hx%Hat Hy%Hat. lia.
  - intros K K' x y Hlt Hx%Hat Hy%Hat. lia.
Qed.

(** The entry at row 7, column 11, channel 2 is 7 * 45 + 11 * 3 + 2 = 350,
    and it is followed in row-major order by 351. *)
Lemma build_dummy_array_truncated_row_major_witness :
  ∃ arr : list (list (list Z)),
    PuzzleTester.build_dummy_array numpy.Truncated = Py.Ok arr
    ∧ numpy.getitem3 arr 7 11 2 = Some 350
    ∧ numpy.ravel3 arr !! 350%nat = Some 350
    ∧ numpy.ravel3 arr !! 351%nat = Some 351.
Proof.
  destruct build_dummy_array_truncated_row_major
    as (arr & Hrun & _ & _ & _ & Hget & _).
  exists arr. split; [exact Hrun|].
  split; [apply (Hget 7 11 2)%nat; lia|].
  assert (Py.Ok arr = PuzzleTester.build_dummy_array numpy.Truncated)
    as Harr by done.
  vm_compute in Harr. injection Harr as ->. split; reflexivity.
Defined.

(** ** The fixtures against each other *)

(** X1: the entries of a pixel list, as the docstring of
    [build_pixel_list] has them.  When the fifteen values can be converted
    to float64, the list without reversal holds at channel [j] of pixel [i]
    the float64 of [start_value + i * pixel_offset + j], the offset being 3
    along a row and 45 along a column, and the reversed list holds there
    the float64 of the value of pixel [4 - i]; while all values stay below
    2^53 in magnitude these are the values themselves. *)
Theorem build_pixel_list_entries (start_value : Z) (is_row : bool)
    (i j : nat) :
  (i < PuzzleTester.PIECE_WIDTH)%nat →
  (j < PuzzleTester.NUMB_PIXEL_DIMENSIONS)%nat →
  pixel_values_fit start_value is_row →
  ∃ (forward backward : list (list Z)) (x y : Z),
    PuzzleTester.build_pixel_list start_value is_row false = Py.Ok forward
    ∧ PuzzleTester.build_pixel_list start_value is_row true = Py.Ok backward
    ∧ Py.float (start_value
                + Z.of_nat i * (if is_row then 3 else 45) + Z.of_nat j)
      = Py.Ok x
    ∧ numpy.getitem2 forward i j = Some x
    ∧ Py.float (start_value
                + (4 - Z.of_nat i) * (if is_row then 3 else 45) + Z.of_nat j)
      = Py.Ok y
    ∧ numpy.getitem2 backward i j = Some y
    ∧ (- Py.EXACT < start_value →
       start_value + 4 * (if is_row then 3 else 45) + 2 < Py.EXACT →
       x = start_value + Z.of_nat i * (if is_row then 3 else 45) + Z.of_nat j
       ∧ y = start_value
             + (4 - Z.of_nat i) * (if is_row then 3 else 45) + Z.of_nat j).
Proof.
  intros Hi Hj Hfit.
  destruct (build_pixel_list_returns start_value is_row Hfit)
    as (pixels & Hfwd & Hrev & Hrect & Hget).
  unfold PuzzleTester.PIECE_WIDTH, PuzzleTester.NUMB_PIXEL_DIMENSIONS in *.
  assert (∀ i' : nat,
            pixel_value start_value is_row i' j
            = start_value + Z.of_nat i' * (if is_row then 3 else 45)
              + Z.of_nat j) as Hval.
  { intros i'. unfold pixel_value. by destruct is_row. }
  destruct (Hget i j Hi Hj) as (x & Hx & Hgx).
  destruct (Hget (5 - 1 - i)%nat j ltac:(lia) Hj) as (y & Hy & Hgy).
  rewrite Hval in Hx, Hy.
  replace (Z.of_nat (5 - 1 - i)) with (4 - Z.of_nat i) in Hy by lia.
  exists pixels, (numpy.flip pixels), x, y.
  split; [exact Hfwd|]. split; [exact Hrev|]. split; [exact Hx|].
  split; [exact Hgx|]. split; [exact Hy|]. split.
  { by rewrite (getitem2_reverse _ _ _ _ _ Hrect Hi). }
  intros Hlo Hhi.
  rewrite float_exact in Hx by (destruct is_row; lia).
  rewrite float_exact in Hy by (destruct is_row; lia).
  split; congruence.
Qed.

(** The column starting at 7: channel 2 of its pixel 1 is 7 + 45 + 2 = 54,
    and in the reversed column that place holds 7 + 3 * 45 + 2 = 144. *)
Lemma build_pixel_list_entries_witness :
  ∃ (forward backward : list (list Z)) (x y : Z),
    PuzzleTester.build_pixel_list 7 false false = Py.Ok forward
    ∧ PuzzleTester.build_pixel_list 7 false true = Py.Ok backward
    ∧ Py.float 54 = Py.Ok x
    ∧ numpy.getitem2 forward 1 2 = Some x
    ∧ Py.float 144 = Py.Ok y
    ∧ numpy.getitem2 backward 1 2 = Some y
    ∧ (- Py.EXACT < 7 → 7 + 4 * 45 + 2 < Py.EXACT → x = 54 ∧ y = 144).
Proof.
  apply (build_pixel_list_entries 7 false 1 2).
  - unfold PuzzleTester.PIECE_WIDTH. lia.
  - unfold PuzzleTester.NUMB_PIXEL_DIMENSIONS. lia.
  - intros i j Hi Hj. eexists.
    apply pixel_values_exact; [reflexivity|reflexivity|done|done].
Defined.

(** X2: what [test_puzzle_piece_maker] expects of the first piece, on a
    numpy that truncates float extents: the pixel list built from
    [TEST_ARRAY_FIRST_PIXEL_VALUE + row * row_to_row_step_size()] along a
    row is row [row] of the top-left 5 x 5 block of the dummy image. *)
Theorem expected_row_is_first_piece_row (row i j : nat) :
  (row < PuzzleTester.PIECE_WIDTH)%nat →
  (i < PuzzleTester.PIECE_WIDTH)%nat →
  (j < PuzzleTester.NUMB_PIXEL_DIMENSIONS)%nat →
  ∃ (img : list (list (list Z))) (test_arr : list (list Z)),
    PuzzleTester.build_dummy_array numpy.Truncated = Py.Ok img
    ∧ PuzzleTester.build_pixel_list
        (PuzzleTester.TEST_ARRAY_FIRST_PIXEL_VALUE
         + Z.of_nat row * Z.of_nat PuzzleTester.row_to_row_step_size)
        true false = Py.Ok test_arr
    ∧ numpy.getitem2 test_arr i j = numpy.getitem3 img row i j.
Proof.
  unfold PuzzleTester.PIECE_WIDTH, PuzzleTester.NUMB_PIXEL_DIMENSIONS.
  intros Hrow Hi Hj.
  destruct build_dummy_array_populated as (img & Himg & _ & Hget).
  change (Z.of_nat PuzzleTester.row_to_row_step_size) with 45.
  unfold PuzzleTester.TEST_ARRAY_FIRST_PIXEL_VALUE.
  destruct (build_pixel_list_exact (0 + Z.of_nat row * 45) true)
    as (test_arr & Hfwd & _ & _ & Hpx).
  { unfold Py.EXACT. lia. }
  { unfold pixel_value, Py.EXACT, PuzzleTester.NUMB_PIXEL_DIMENSIONS. lia. }
  exists img, test_arr. split; [exact Himg|]. split; [exact Hfwd|].
  rewrite Hpx by done. rewrite Hget by lia.
  unfold pixel_value, numpy.offset3, PuzzleTester.NUMB_PIXEL_DIMENSIONS.
  f_equal. lia.
Qed.

(** Row 3 of the first piece, pixel 4, channel 2. *)
Lemma expected_row_is_first_piece_row_witness :
  ∃ (img : list (list (list Z))) (test_arr : list (list Z)),
    PuzzleTester.build_dummy_array numpy.Truncated = Py.Ok img
    ∧ PuzzleTester.build_pixel_list (0 + 3 * 45) true false = Py.Ok test_arr
    ∧ numpy.getitem2 test_arr 4 2 = numpy.getitem3 img 3 4 2.
Proof.
  apply (expected_row_is_first_piece_row 3 4 2);
    unfold PuzzleTester.PIECE_WIDTH, PuzzleTester.NUMB_PIXEL_DIMENSIONS; lia.
Defined.

(** ** The loops of build_dummy_array on any array *)

Lemma rect3_no_columns (n k : nat) (arr : list (list (list Z))) :
  numpy.rect3 n 0 k arr →
  numpy.rect3 n 0 0 arr ∧ numpy.shape3 arr = (n, 0, 0)%nat.
Proof.
  intros [Hn Ha].
  assert (Forall (λ p, p = []) arr) as Hnil.
  { eapply Forall_impl; [exact Ha|]. intros p [Hp _]. by destruct p. }
  split.
  - split; [done|]. eapply Forall_impl; [exact Hnil|].
    intros p ->. by split.
  - unfold numpy.shape3. rewrite Hn.
    destruct arr as [|p arr]; [done|]. by rewrite (Forall_inv Hnil).
Qed.

(** X5: the three loops of [build_dummy_array] work for every shape, zero
    extents included: run on an array of shape (n, m, k) with the counter
    at [val], whatever the array held before, and with all of
    val, ..., val + n * m * k - 1 below 2^53 in magnitude, they raise
    nothing, write [val + (row * m + col) * k + dim] at (row, col, dim), so
    that the row-major traversal reads val, val + 1, ..., and leave the
    counter at [val + n * m * k]. *)
Theorem populate_fills_any_shape (n m k : nat) (arr : list (list (list Z)))
    (val : Z) :
  numpy.rect3 n m k arr →
  - Py.EXACT < val → val + Z.of_nat (n * m * k) ≤ Py.EXACT →
  ∃ arr' : list (list (list Z)),
    PuzzleTester.populate arr val = Py.Ok (arr', val + Z.of_nat (n * m * k))
    ∧ numpy.rect3 n m k arr'
    ∧ (∀ row col dim : nat, (row < n)%nat → (col < m)%nat → (dim < k)%nat →
         numpy.getitem3 arr' row col dim
         = Some (val + Z.of_nat ((row * m + col) * k + dim)))
    ∧ numpy.ravel3 arr' = (λ K : nat, val + Z.of_nat K) <$> seq 0 (n * m * k).
Proof.
  intros Hrect Hlo Hhi.
  assert (∃ arr', PuzzleTester.populate arr val
                    = Py.Ok (arr', val + Z.of_nat (n * m * k))
            ∧ numpy.rect3 n m k arr'
            ∧ ∀ i j l, (i < n)%nat → (j < m)%nat → (l < k)%nat →
                numpy.getitem3 arr' i j l
                = Some (val + Z.of_nat (numpy.offset3 m k i j l)))
    as (arr' & Hrun & Hrect' & Hget).
  { destruct (decide (m = 0)%nat) as [->|Hm].
    - (* no columns: the shape read off the array is (n, 0, 0) *)
      destruct (rect3_no_columns n k arr Hrect) as [Hrect0 Hshape].
      destruct (populate_entries n 0 0 val Hlo ltac:(lia) arr Hrect0 Hshape)
        as (arr' & Hrun & Hrect' & _).
      exists arr'. split; [|split].
      + rewrite Hrun. do 3 f_equal. lia.
      + destruct Hrect' as [Hn' Ha']. split; [done|].
        eapply Forall_impl; [exact Ha'|]. intros p [Hp _].
        destruct p; [by split|done].
      + intros i j l _ Hj. lia.
    - destruct (decide (n = 0)%nat) as [->|Hn].
      + (* no rows: the array is empty *)
        destruct Hrect as [Hlen _]. destruct arr; [|done].
        exists []. split; [|split].
        * unfold PuzzleTester.populate. simpl. by rewrite Z.add_0_r.
        * split; [done|constructor].
        * intros i j l Hi. lia.
      + apply populate_entries; [done|done|done|].
        apply rect3_shape; [done|lia..]. }
  exists arr'. split; [exact Hrun|]. split; [exact Hrect'|].
  split; [exact Hget|].
  apply list_eq. intros K.
  destruct (decide (K < n * m * k)%nat) as [HK|HK].
  - rewrite (ravel3_counts n m k arr' val Hrect' Hget K HK).
    rewrite list_lookup_fmap, lookup_seq_lt by done. reflexivity.
  - rewrite !lookup_ge_None_2; [done| |].
    + rewrite length_fmap, length_seq. lia.
    + rewrite (length_ravel3 n m k) by done. lia.
Qed.

(** An array of shape (2, 3, 2) that holds sevens, counted through from 10. *)
Lemma populate_fills_any_shape_witness :
  ∃ arr' : list (list (list Z)),
    PuzzleTester.populate (replicate 2 (replicate 3 (replicate 2 7))) 10
      = Py.Ok (arr', 22)
    ∧ numpy.rect3 2 3 2 arr'
    ∧ (∀ row col dim : nat, (row < 2)%nat → (col < 3)%nat → (dim < 2)%nat →
         numpy.getitem3 arr' row col dim
         = Some (10 + Z.of_nat ((row * 3 + col) * 2 + dim)))
    ∧ numpy.ravel3 arr' = [10; 11; 12; 13; 14; 15; 16; 17; 18; 19; 20; 21].
Proof.
  apply (populate_fills_any_shape 2 3 2
           (replicate 2 (replicate 3 (replicate 2 7))) 10).
  - split; [reflexivity|]. repeat constructor.
  - reflexivity.
  - vm_compute. discriminate.
Defined.

(** ** Pixel lists as slices of the dummy image *)

(** X6: a pixel list is a slice of the dummy image, on a numpy that
    truncates float extents.  Started from the value the image holds in
    the first channel of the pixel at (r, c), [build_pixel_list] returns
    the [PIECE_WIDTH] pixels of the image from (r, c) rightwards when
    [is_row] is set and from (r, c) downwards when it is not, wherever in
    the 15 x 15 image the slice fits; with [reverse_list] the same pixels,
    last one first. *)
Theorem pixel_list_is_image_slice (is_row : bool) (r c i j : nat) :
  (if is_row
   then (r < 15)%nat ∧ (c + PuzzleTester.PIECE_WIDTH ≤ 15)%nat
   else (r + PuzzleTester.PIECE_WIDTH ≤ 15)%nat ∧ (c < 15)%nat) →
  (i < PuzzleTester.PIECE_WIDTH)%nat →
  (j < PuzzleTester.NUMB_PIXEL_DIMENSIONS)%nat →
  ∃ (img : list (list (list Z))) (start_value : Z)
    (forward backward : list (list Z)),
    PuzzleTester.build_dummy_array numpy.Truncated = Py.Ok img
    ∧ numpy.getitem3 img r c 0 = Some start_value
    ∧ PuzzleTester.build_pixel_list start_value is_row false = Py.Ok forward
    ∧ PuzzleTester.build_pixel_list start_value is_row true = Py.Ok backward
    ∧ numpy.getitem2 forward i j
      = (if is_row then numpy.getitem3 img r (c + i) j
         else numpy.getitem3 img (r + i) c j)
    ∧ numpy.getitem2 backward i j
      = (if is_row
         then numpy.getitem3 img r (c + (PuzzleTester.PIECE_WIDTH - 1 - i)) j
         else numpy.getitem3 img (r + (PuzzleTester.PIECE_WIDTH - 1 - i)) c j).
Proof.
  unfold PuzzleTester.PIECE_WIDTH, PuzzleTester.NUMB_PIXEL_DIMENSIONS.
  intros Hfit Hi Hj.
  destruct build_dummy_array_populated as (img & Himg & _ & Hget).
  set (start_value := 0 + Z.of_nat (numpy.offset3 15 3 r c 0)).
  assert (0 ≤ start_value ≤ 674) as Hstart.
  { unfold start_value, numpy.offset3. destruct is_row; lia. }
  assert (∀ i' : nat,
            pixel_value start_value is_row i' j
            = start_value + Z.of_nat i' * (if is_row then 3 else 45)
              + Z.of_nat j) as Hval.
  { intros i'. unfold pixel_value. by destruct is_row. }
  destruct (build_pixel_list_exact start_value is_row)
    as (pixels & Hfwd & Hrev & Hrect & Hpx).
  { unfold Py.EXACT. lia. }
  { unfold pixel_value, Py.EXACT. destruct is_row;
      [unfold PuzzleTester.NUMB_PIXEL_DIMENSIONS
      |change PuzzleTester.row_to_row_step_size with 45%nat]; lia. }
  unfold PuzzleTester.PIECE_WIDTH, PuzzleTester.NUMB_PIXEL_DIMENSIONS in *.
  exists img, start_value, pixels, (numpy.flip pixels).
  split; [exact Himg|].
  split; [apply Hget; destruct is_row; lia|].
  split; [exact Hfwd|]. split; [exact Hrev|].
  rewrite (getitem2_reverse _ _ _ _ _ Hrect Hi), !Hpx, !Hval by lia.
  unfold start_value, numpy.offset3.
  destruct is_row; (split; (rewrite Hget by lia));
    unfold numpy.offset3; f_equal; lia.
Qed.

(** The column of five pixels below (9, 13): its pixel 3 is the image's
    pixel (12, 13), and reversed it is pixel (10, 13). *)
Lemma pixel_list_is_image_slice_witness :
  ∃ (img : list (list (list Z))) (start_value : Z)
    (forward backward : list (list Z)),
    PuzzleTester.build_dummy_array numpy.Truncated = Py.Ok img
    ∧ numpy.getitem3 img 9 13 0 = Some start_value
    ∧ PuzzleTester.build_pixel_list start_value false false = Py.Ok forward
    ∧ PuzzleTester.build_pixel_list start_value false true = Py.Ok backward
    ∧ numpy.getitem2 forward 3 2 = numpy.getitem3 img 12 13 2
    ∧ numpy.getitem2 backward 3 2 = numpy.getitem3 img 10 13 2.
Proof.
  apply (pixel_list_is_image_slice false 9 13 3 2);
    unfold PuzzleTester.PIECE_WIDTH, PuzzleTester.NUMB_PIXEL_DIMENSIONS;
    [split|..]; lia.
Defined.

(** ** Step sizes of the dummy image *)

(** X7: [row_to_row_step_size()] is what its docstring says of the dummy
    image, on a numpy that truncates float extents: from any entry, the
    entry of the same pixel position and channel one row below is larger
    by [row_to_row_step_size()], the entry of the same channel one pixel
    to the right is larger by [NUMB_PIXEL_DIMENSIONS], and the next channel
    of the same pixel is larger by one. *)
Theorem dummy_array_step_sizes (row col dim : nat) :
  (row < 15)%nat → (col < 15)%nat →
  (dim < PuzzleTester.NUMB_PIXEL_DIMENSIONS)%nat →
  ∃ (img : list (list (list Z))) (x : Z),
    PuzzleTester.build_dummy_array numpy.Truncated = Py.Ok img
    ∧ numpy.getitem3 img row col dim = Some x
    ∧ ((S row < 15)%nat →
       numpy.getitem3 img (S row) col dim
       = Some (x + Z.of_nat PuzzleTester.row_to_row_step_size))
    ∧ ((S col < 15)%nat →
       numpy.getitem3 img row (S col) dim
       = Some (x + Z.of_nat PuzzleTester.NUMB_PIXEL_DIMENSIONS))
    ∧ ((S dim < PuzzleTester.NUMB_PIXEL_DIMENSIONS)%nat →
       numpy.getitem3 img row col (S dim) = Some (x + 1)).
Proof.
  change (Z.of_nat PuzzleTester.row_to_row_step_size) with 45.
  change PuzzleTester.NUMB_PIXEL_DIMENSIONS with 3%nat.
  intros Hr Hc Hd.
  destruct build_dummy_array_populated as (img & Himg & _ & Hget).
  exists img, (0 + Z.of_nat (numpy.offset3 15 3 row col dim)).
  split; [exact Himg|]. split; [by apply Hget|].
  repeat split; intros Hnext; rewrite Hget by done;
    unfold numpy.offset3; f_equal; lia.
Qed.

(** From the entry at (3, 13, 1), which is 175: one row down is 220, one
    pixel to the right 178, and one channel on 176. *)
Lemma dummy_array_step_sizes_witness :
  ∃ (img : list (list (list Z))) (x : Z),
    PuzzleTester.build_dummy_array numpy.Truncated = Py.Ok img
    ∧ numpy.getitem3 img 3 13 1 = Some x
    ∧ ((4 < 15)%nat → numpy.getitem3 img 4 13 1 = Some (x + 45))
    ∧ ((14 < 15)%nat → numpy.getitem3 img 3 14 1 = Some (x + 3))
    ∧ ((2 < 3)%nat → numpy.getitem3 img 3 13 2 = Some (x + 1)).
Proof.
  apply (dummy_array_step_sizes 3 13 1);
    unfold PuzzleTester.NUMB_PIXEL_DIMENSIONS; lia.
Defined.

(** ** The order of the values in a pixel list *)

Lemma getitem2_inside (n m : nat) (a : list (list Z)) (i j : nat) (x : Z) :
  numpy.rect2 n m a → numpy.getitem2 a i j = Some x → (i < n)%nat ∧ (j < m)%nat.
Proof.
  intros Ha. unfold numpy.getitem2.
  destruct (a !! i) as [r|] eqn:Hr; [simpl|done]. intros Hj.
  pose proof (rect2_lookup _ _ _ _ _ Ha Hr) as Hlen.
  apply lookup_lt_Some in Hr, Hj. destruct Ha as [Hn _]. lia.
Qed.

(** X8: the order the docstring of [build_pixel_list] promises, while all
    fifteen values stay below 2^53 in magnitude, where float64 holds them
    exactly.  Without reversal the values increase strictly along the
    list, pixel after pixel and channel after channel, from [start_value]
    in the first place; with reversal every value of a pixel is larger
    than every value of each pixel after it, so the highest value of all
    stands in the first pixel. *)
Theorem build_pixel_list_ordered (start_value : Z) (is_row : bool) :
  - Py.EXACT < start_value →
  pixel_value start_value is_row 4 2 < Py.EXACT →
  ∃ forward backward : list (list Z),
    PuzzleTester.build_pixel_list start_value is_row false = Py.Ok forward
    ∧ PuzzleTester.build_pixel_list start_value is_row true = Py.Ok backward
    ∧ numpy.getitem2 forward 0 0 = Some start_value
    ∧ (∀ (i j i' j' : nat) (x y : Z),
         numpy.getitem2 forward i j = Some x →
         numpy.getitem2 forward i' j' = Some y →
         (i < i')%nat ∨ (i = i' ∧ (j < j')%nat) → x < y)
    ∧ (∀ (i j i' j' : nat) (x y : Z),
         numpy.getitem2 backward i j = Some x →
         numpy.getitem2 backward i' j' = Some y →
         (i < i')%nat → y < x).
Proof.
  intros Hlo Hhi.
  destruct (build_pixel_list_exact start_value is_row Hlo Hhi)
    as (pixels & Hfwd & Hrev & Hrect & Hpx).
  pose proof (rect2_reverse _ _ _ Hrect) as Hrect'.
  assert (∀ i j : nat,
            pixel_value start_value is_row i j
            = start_value + Z.of_nat i * (if is_row then 3 else 45)
              + Z.of_nat j) as Hval.
  { intros i j. unfold pixel_value. by destruct is_row. }
  unfold PuzzleTester.PIECE_WIDTH, PuzzleTester.NUMB_PIXEL_DIMENSIONS in *.
  exists pixels, (numpy.flip pixels).
  split; [exact Hfwd|]. split; [exact Hrev|]. split; [|split].
  - rewrite Hpx, Hval by lia. f_equal. lia.
  - intros i j i' j' x y Hx Hy Hlt.
    destruct (getitem2_inside _ _ _ _ _ _ Hrect Hx) as [Hi Hj].
    destruct (getitem2_inside _ _ _ _ _ _ Hrect Hy) as [Hi' Hj'].
    rewrite Hpx, Hval in Hx by done. rewrite Hpx, Hval in Hy by done.
    injection Hx as <-. injection Hy as <-.
    destruct is_row; lia.
  - intros i j i' j' x y Hx Hy Hlt.
    destruct (getitem2_inside _ _ _ _ _ _ Hrect' Hx) as [Hi Hj].
    destruct (getitem2_inside _ _ _ _ _ _ Hrect' Hy) as [Hi' Hj'].
    rewrite (getitem2_reverse _ _ _ i j Hrect Hi), Hpx, Hval in Hx by lia.
    rewrite (getitem2_reverse _ _ _ i' j' Hrect Hi'), Hpx, Hval in Hy by lia.
    injection Hx as <-. injection Hy as <-.
    destruct is_row; lia.
Qed.

(** The row of pixels from 100: it starts at 100 and ends at 114, which
    the reversed list holds in its first pixel. *)
Lemma build_pixel_list_ordered_witness :
  ∃ forward backward : list (list Z),
    PuzzleTester.build_pixel_list 100 true false = Py.Ok forward
    ∧ PuzzleTester.build_pixel_list 100 true true = Py.Ok backward
    ∧ numpy.getitem2 forward 0 0 = Some 100
    ∧ numpy.getitem2 forward 4 2 = Some 114
    ∧ numpy.getitem2 backward 0 2 = Some 114.
Proof.
  destruct (build_pixel_list_ordered 100 true ltac:(reflexivity)
              ltac:(reflexivity))
    as (forward & backward & Hfwd & Hrev & Hfirst & _).
  exists forward, backward.
  split; [exact Hfwd|]. split; [exact Hrev|]. split; [exact Hfirst|].
  assert (Py.Ok forward = PuzzleTester.build_pixel_list 100 true false)
    as Hf by done.
  assert (Py.Ok backward = PuzzleTester.build_pixel_list 100 true true)
    as Hb by done.
  vm_compute in Hf, Hb. injection Hf as ->. injection Hb as ->.
  split; reflexivity.
Defined.
